(** * Change-triggered commit pipeline: auto_commit.py and watch_changes.py

    A shallow embedding of the two scripts that make up the pipeline of the
    knowledge-base template:

    - [AutoCommit]   models scripts/auto_commit.py (status, stage+commit,
      push, the one-shot [--commit-only] branch and the periodic loop);
    - [WatchChanges] models scripts/watch_changes.py (the [ChangeHandler]
      class with its debounce loop, and the serial delivery of events to it).

    Python exceptions are explicit: a computation returns [Ok v] or
    [Raise e], and [try ... except CalledProcessError] is [try_except].
    [CalledProcessError], the exception the source catches, is raised by
    [subprocess.run(..., check=True)] exactly when the child exits with a
    non-zero status; a child that cannot be started at all is outside the
    model, as is an interrupt from the keyboard. *)

From Stdlib Require Import ZArith List String Ascii Bool Lia.
From Stdlib Require Import DecimalString.
Import ListNotations.
Open Scope string_scope.
Open Scope Z_scope.

(** ** Python string helpers shared by the two scripts *)

Module Py.

(** A character is a code point below 256.  [str.isspace] on that range:
    TAB..CR, FS..US, SPACE, NEL and NBSP. *)
Definition isspace (c : ascii) : bool :=
  let n := nat_of_ascii c in
  ((9 <=? n)%nat && (n <=? 13)%nat)
  || ((28 <=? n)%nat && (n <=? 32)%nat)
  || (n =? 133)%nat || (n =? 160)%nat.

Fixpoint lstrip (s : string) : string :=
  match s with
  | EmptyString => EmptyString
  | String c r => if isspace c then lstrip r else s
  end.

Fixpoint rev_onto (s acc : string) : string :=
  match s with
  | EmptyString => acc
  | String c r => rev_onto r (String c acc)
  end.

Definition rev (s : string) : string := rev_onto s EmptyString.

Definition rstrip (s : string) : string := rev (lstrip (rev s)).

(** [str.strip()] with no argument. *)
Definition strip (s : string) : string := rstrip (lstrip s).

(** The one-character string holding a double quote. *)
Definition dquote : string := String (ascii_of_nat 34) EmptyString.

(** [str(n)] for an integer. *)
Definition str_of_Z (z : Z) : string := NilZero.string_of_int (Z.to_int z).

(** [os.path.basename] on POSIX: everything after the last slash. *)
Fixpoint basename_from (cur p : string) : string :=
  match p with
  | EmptyString => cur
  | String c r =>
      if Ascii.eqb c "/"%char then basename_from r r else basename_from cur r
  end.

Definition basename (p : string) : string := basename_from p p.

(** [s.startswith('.')]. *)
Definition startswith_dot (s : string) : bool :=
  match s with
  | String c _ => Ascii.eqb c "."%char
  | EmptyString => false
  end.

(** Log records of the [logging] module: level and message. *)
Inductive level := INFO | ERROR.

Definition record : Type := level * string.

End Py.

(** ** scripts/auto_commit.py *)

Module AutoCommit.

(** [subprocess.CompletedProcess] with [capture_output=True, text=True]. *)
Record CompletedProcess : Type := {
  returncode : Z;
  stdout : string;
  stderr : string
}.

(** Exceptions that the script can meet: the one it catches, raised by
    [check=True] on a non-zero exit, and the [ValueError] of
    [time.sleep] on a negative length. *)
Inductive exn : Type :=
| CalledProcessError (cmd : string) (rc : Z) (err : string)
| ValueError (msg : string).

Inductive result (A : Type) : Type :=
| Ok (a : A)
| Raise (e : exn).

Arguments Ok {A} a.
Arguments Raise {A} e.

(** What lies outside the script: the shell that runs a command line, the
    wall clock, the formatting of a time stamp and the passing of time. *)
Class Environment : Type := {
  World : Type;
  exec : string -> World -> CompletedProcess * World;
  now : World -> Z;
  strftime : Z -> string;
  sleep : Z -> World -> World
}.

Section Script.

Context `{Env : Environment}.

(** The state threaded through the script: the outside world, the command
    lines handed to [subprocess.run] so far, and the records written by
    [logger].  The log is kept apart from the world: what a command does
    never depends on what the script has logged. *)
Record State : Type := {
  world : World;
  cmds : list string;
  log : list Py.record
}.

Definition M (A : Type) : Type := State -> result A * State.

Definition ret {A : Type} (a : A) : M A := fun st => (Ok a, st).

Definition bind {A B : Type} (c : M A) (k : A -> M B) : M B :=
  fun st =>
    match c st with
    | (Ok a, st') => k a st'
    | (Raise e, st') => (Raise e, st')
    end.

Notation "x <- c ;; k" := (bind c (fun x => k))
  (at level 61, c at next level, right associativity).
Notation "c ;;; k" := (bind c (fun _ => k))
  (at level 61, right associativity).

(** [try: body except subprocess.CalledProcessError as e: handler]. *)
Definition try_except {A : Type} (body : M A)
  (handler : string -> Z -> string -> M A) : M A :=
  fun st =>
    match body st with
    | (Raise (CalledProcessError c rc err), st') => handler c rc err st'
    | other => other
    end.

Definition logger_info (msg : string) : M unit :=
  fun st =>
    (Ok tt, {| world := world st; cmds := cmds st;
               log := log st ++ [(Py.INFO, msg)] |}).

Definition logger_error (msg : string) : M unit :=
  fun st =>
    (Ok tt, {| world := world st; cmds := cmds st;
               log := log st ++ [(Py.ERROR, msg)] |}).

Definition datetime_now : M Z := fun st => (Ok (now (world st)), st).

(** [time.sleep(secs)] for a length that fits the clock of the interpreter,
    at most 9223372036 s either side of zero; beyond that the call raises
    [OverflowError] instead, which is left out here. *)
Definition time_sleep (secs : Z) : M unit :=
  fun st =>
    if secs <? 0 then (Raise (ValueError "sleep length must be non-negative"), st)
    else (Ok tt, {| world := sleep secs (world st); cmds := cmds st;
                    log := log st |}).

(** [subprocess.run(command, shell=True, check=True, capture_output=True,
    text=True)]. *)
Definition subprocess_run (command : string) : M CompletedProcess :=
  fun st =>
    let (p, w') := exec command (world st) in
    let st' := {| world := w'; cmds := cmds st ++ [command]; log := log st |} in
    if returncode p =? 0 then (Ok p, st')
    else (Raise (CalledProcessError command (returncode p) (stderr p)), st').

Definition run_command (command : string) : M (option string) :=
  try_except
    (process <- subprocess_run command ;;
     ret (Some (Py.strip (stdout process))))
    (fun _ _ err =>
       logger_error ("Command failed: " ++ command) ;;;
       logger_error ("Error: " ++ err) ;;;
       ret None).

Definition get_git_status : M (option string) :=
  run_command "git status --porcelain".

Definition commit_changes (message : option string) : M bool :=
  message <- match message with
             | None =>
                 timestamp <- datetime_now ;;
                 ret ("Auto-commit: Update documentation at "
                        ++ strftime timestamp)
             | Some m => ret m
             end ;;
  stage_result <- run_command "git add --all" ;;
  match stage_result with
  | None => ret false
  | Some _ =>
      commit_result <-
        run_command ("git commit -m " ++ Py.dquote ++ message ++ Py.dquote) ;;
      match commit_result with
      | None => ret false
      | Some _ =>
          logger_info ("Changes committed: " ++ message) ;;;
          ret true
      end
  end.

Definition push_changes : M bool :=
  push_result <- run_command "git push" ;;
  match push_result with
  | None => logger_error "Failed to push changes" ;;; ret false
  | Some _ => logger_info "Changes pushed to remote repository" ;;; ret true
  end.

(** Truth value of [status] in [if status:]: [None] and the empty string
    are false. *)
Definition truthy (status : option string) : bool :=
  match status with
  | None => false
  | Some s => negb (String.eqb s "")
  end.

(** One round of the [while True] loop of [auto_commit_changes]. *)
Definition auto_commit_round (interval : Z) : M unit :=
  status <- get_git_status ;;
  (if truthy status then
     logger_info "Changes detected" ;;;
     committed <- commit_changes None ;;
     if committed then (_ <- push_changes ;; ret tt) else ret tt
   else logger_info "No changes detected") ;;;
  time_sleep interval.

Fixpoint rounds (n : nat) (interval : Z) : M unit :=
  match n with
  | O => ret tt
  | S n' => auto_commit_round interval ;;; rounds n' interval
  end.

(** [auto_commit_changes] never returns; [auto_commit_changes p i n] is the
    run up to the end of its [n]-th round (or up to an exception that
    escapes the loop). *)
Definition auto_commit_changes (path_to_watch : string) (interval : Z)
  (n : nat) : M unit :=
  logger_info ("Monitoring " ++ path_to_watch ++ " for changes every "
                 ++ Py.str_of_Z interval ++ " seconds") ;;;
  rounds n interval.

(** The [if args.commit_only:] branch of the script body. *)
Definition main_commit_only : M unit :=
  status <- get_git_status ;;
  if truthy status then
    committed <- commit_changes None ;;
    if committed then (_ <- push_changes ;; ret tt)
    else logger_error "Failed to commit changes"
  else logger_info "No changes to commit".

(** Parsed command line, with the defaults of the parser. *)
Record Args : Type := {
  path : string;
  interval : Z;
  commit_only : bool
}.

Definition default_args : Args :=
  {| path := "docs"; interval := 300; commit_only := false |}.

Definition main (args : Args) (n : nat) : M unit :=
  if commit_only args then main_commit_only
  else auto_commit_changes (path args) (interval args) n.

End Script.

End AutoCommit.

(** ** scripts/watch_changes.py *)

Module WatchChanges.

(** Time is counted in microseconds, the resolution of [datetime]; the
    debounce time is given in whole seconds ([--debounce], [type=int]).
    [total_seconds() >= debounce_time] is then a comparison of whole
    numbers of microseconds, which the floating-point quotient of the
    source decides the same way for any span a clock can show. *)
Definition us_per_s : Z := 1000000.

(** A [watchdog] event, as far as the handler reads it. *)
Record FileSystemEvent : Type := {
  event_type : string;
  src_path : string;
  is_directory : bool
}.

(** [subprocess.CalledProcessError], raised by [check=True] when the child
    exits with a non-zero status. *)
Inductive exn : Type :=
| CalledProcessError (cmd : list string) (rc : Z).

Inductive result (A : Type) : Type :=
| Ok (a : A)
| Raise (e : exn).

Arguments Ok {A} a.
Arguments Raise {A} e.

(** What the script does to the outside, in order. *)
Inductive effect : Type :=
| Logged (lvl : Py.level) (msg : string)
| Slept (secs : Z)
| Spawned (argv : list string) (started : Z).

(** The outside world: the clock read by [datetime.now()], by how much each
    coming [time.sleep] oversleeps, the exit status and the running time of
    each coming child process, and the effects so far.  Time passes while
    the script sleeps, while it waits for a child and while the observer
    waits for an event. *)
Record World : Type := {
  clock : Z;
  overshoot : list N;
  children : list (Z * N);
  trace : list effect
}.

(** Where the script is installed and how the library prints the exception
    in [f"Auto commit failed: {e}"]. *)
Class Runtime : Type := {
  sys_executable : string;
  script_dir : string;
  cwd : string;
  str_of_exn : exn -> string
}.

(** The instance attributes of [ChangeHandler]. *)
Record ChangeHandler : Type := {
  debounce_time : Z;
  last_modified : Z;
  timer_running : bool
}.

Definition set_last_modified (t : Z) (self : ChangeHandler) : ChangeHandler :=
  {| debounce_time := debounce_time self; last_modified := t;
     timer_running := timer_running self |}.

Definition set_timer_running (b : bool) (self : ChangeHandler) : ChangeHandler :=
  {| debounce_time := debounce_time self; last_modified := last_modified self;
     timer_running := b |}.

Definition emit (e : effect) (w : World) : World :=
  {| clock := clock w; overshoot := overshoot w; children := children w;
     trace := trace w ++ [e] |}.

Definition logger_info (msg : string) (w : World) : World :=
  emit (Logged Py.INFO msg) w.

Definition logger_error (msg : string) (w : World) : World :=
  emit (Logged Py.ERROR msg) w.

(** [time.sleep(secs)] for a non-negative [secs]: at least that long. *)
Definition time_sleep (secs : Z) (w : World) : World :=
  {| clock := clock w + secs * us_per_s + Z.of_N (hd 0%N (overshoot w));
     overshoot := tl (overshoot w);
     children := children w;
     trace := trace w ++ [Slept secs] |}.

(** [subprocess.run(argv, check=True)]: blocks until the child exits. *)
Definition subprocess_run (argv : list string) (w : World)
  : result unit * World :=
  let '(rc, took) := hd (0, 0%N) (children w) in
  let w' := {| clock := clock w + Z.of_N took;
               overshoot := overshoot w;
               children := tl (children w);
               trace := trace w ++ [Spawned argv (clock w)] |} in
  if rc =? 0 then (Ok tt, w')
  else (Raise (CalledProcessError argv rc), w').

Section Handler.

Context `{RT : Runtime}.

(** [ChangeHandler.__init__]. *)
Definition init (debounce : Z) (w : World) : ChangeHandler :=
  {| debounce_time := debounce; last_modified := clock w;
     timer_running := false |}.

Definition commit_argv : list string :=
  [sys_executable; script_dir ++ "/auto_commit.py"; "--commit-only"].

Definition _trigger_commit (w : World) : result unit * World :=
  let w1 := logger_info "Triggering auto commit" w in
  match subprocess_run commit_argv w1 with
  | (Ok _, w2) => (Ok tt, logger_info "Auto commit completed successfully" w2)
  | (Raise e, w2) =>
      (Ok tt, logger_error ("Auto commit failed: " ++ str_of_exn e) w2)
  end.

(** The [while True] loop of [_start_timer]; [fuel] bounds the number of
    polls, [None] means the bound was reached. *)
Fixpoint _start_timer (fuel : nat) (self : ChangeHandler) (w : World)
  : option (result unit * ChangeHandler * World) :=
  match fuel with
  | O => None
  | S fuel' =>
      let time_since_last_change := clock w - last_modified self in
      if debounce_time self * us_per_s <=? time_since_last_change then
        let w1 := logger_info ("Changes settled after "
                                 ++ Py.str_of_Z (debounce_time self)
                                 ++ " seconds") w in
        match _trigger_commit w1 with
        | (Ok _, w2) => Some (Ok tt, set_timer_running false self, w2)
        | (Raise e, w2) => Some (Raise e, self, w2)
        end
      else _start_timer fuel' self (time_sleep 1 w)
  end.

(** The events that [on_any_event] lets through. *)
Definition qualifies (event : FileSystemEvent) : bool :=
  negb (is_directory event
        || Py.startswith_dot (Py.basename (src_path event))).

Definition on_any_event (fuel : nat) (self : ChangeHandler)
  (event : FileSystemEvent) (w : World)
  : option (result unit * ChangeHandler * World) :=
  if is_directory event || Py.startswith_dot (Py.basename (src_path event))
  then Some (Ok tt, self, w)
  else
    let w1 := logger_info ("Change detected: " ++ src_path event ++ " ("
                             ++ event_type event ++ ")") w in
    let self1 := set_last_modified (clock w1) self in
    if negb (timer_running self1) then
      _start_timer fuel (set_timer_running true self1) w1
    else Some (Ok tt, self1, w1).

(** The observer thread started by [observer.start()]: it takes the events
    from its queue one at a time and calls the handler for each, so a call
    begins once the event has arrived and the call before it has returned.
    An event is paired with its arrival time.  The queue lists the events
    that reach the handler: the observer drops an event equal to the one
    queued just before it while that one still waits. *)
Definition await (arrival : Z) (w : World) : World :=
  {| clock := Z.max (clock w) arrival; overshoot := overshoot w;
     children := children w; trace := trace w |}.

Fixpoint dispatch (fuel : nat) (queue : list (Z * FileSystemEvent))
  (self : ChangeHandler) (w : World)
  : option (result unit * ChangeHandler * World) :=
  match queue with
  | [] => Some (Ok tt, self, w)
  | (arrival, event) :: rest =>
      match on_any_event fuel self event (await arrival w) with
      | Some (Ok _, self', w') => dispatch fuel rest self' w'
      | other => other
      end
  end.

(** [Path(p).absolute()] as [str] prints it, on POSIX: the path is cut at
    its slashes, empty components and [.] are dropped ([..] is kept), a
    relative path is put below the working directory, and exactly two
    leading slashes are kept as they are. *)
Fixpoint split_slash (s : string) : list string :=
  match s with
  | EmptyString => [EmptyString]
  | String c r =>
      if Ascii.eqb c "/" then EmptyString :: split_slash r
      else match split_slash r with
           | h :: t => String c h :: t
           | [] => [String c EmptyString]
           end
  end.

Definition parts (p : string) : list string :=
  filter (fun x => negb (String.eqb x EmptyString || String.eqb x "."))
    (split_slash p).

Definition root (p : string) : string :=
  match p with
  | String "/"%char (String "/"%char (String "/"%char _)) => "/"
  | String "/"%char (String "/"%char _) => "//"
  | String "/"%char _ => "/"
  | _ => EmptyString
  end.

Definition absolute (p : string) : string :=
  if String.eqb (root p) EmptyString
  then root cwd ++ String.concat "/" (parts cwd ++ parts p)%list
  else root p ++ String.concat "/" (parts p).

(** [watch_directory], up to the end of the given queue of events. *)
Definition watch_directory (path_to_watch : string) (debounce : Z)
  (fuel : nat) (queue : list (Z * FileSystemEvent)) (w : World)
  : option (result unit * ChangeHandler * World) :=
  let w1 := logger_info ("Starting file watcher for "
                           ++ absolute path_to_watch) w in
  dispatch fuel queue (init debounce w1) w1.

End Handler.

(** The start times of the commit runs in a trace. *)
Fixpoint firings (t : list effect) : list Z :=
  match t with
  | [] => []
  | Spawned _ started :: r => started :: firings r
  | _ :: r => firings r
  end.

(** The number of sleeps in a trace. *)
Fixpoint sleeps (t : list effect) : nat :=
  match t with
  | [] => O
  | Slept _ :: r => S (sleeps r)
  | _ :: r => sleeps r
  end.

End WatchChanges.

(** ** Stand-ins for the outside world, used to run the scripts on
    concrete inputs *)

Module Doubles.

Import AutoCommit.

(** A repository that answers each command line from a fixed table and a
    clock that only [sleep] moves. *)
Record Canned : Type := {
  on_status : CompletedProcess;
  on_add : CompletedProcess;
  on_commit : CompletedProcess;
  on_push : CompletedProcess;
  time : Z
}.

Definition exited (rc : Z) (out err : string) : CompletedProcess :=
  {| returncode := rc; stdout := out; stderr := err |}.

Definition canned_exec (command : string) (w : Canned)
  : CompletedProcess * Canned :=
  if String.eqb command "git status --porcelain" then (on_status w, w)
  else if String.eqb command "git add --all" then (on_add w, w)
  else if String.eqb command "git push" then (on_push w, w)
  else if String.prefix "git commit -m " command then (on_commit w, w)
  else (exited 127 "" "command not found", w).

#[export] Instance canned_env : Environment := {|
  World := Canned;
  exec := canned_exec;
  now := time;
  strftime := Py.str_of_Z;
  sleep := fun secs w =>
    {| on_status := on_status w; on_add := on_add w;
       on_commit := on_commit w; on_push := on_push w;
       time := time w + secs |}
|}.

Definition fresh (w : Canned) : State :=
  {| world := w; cmds := []; log := [] |}.

(** Nothing to commit. *)
Definition clean_repo : Canned :=
  {| on_status := exited 0 "" "";
     on_add := exited 0 "" "";
     on_commit := exited 1 "nothing to commit, working tree clean" "";
     on_push := exited 0 "" "Everything up-to-date";
     time := 1700000000 |}.

(** One modified file; every command succeeds. *)
Definition dirty_repo : Canned :=
  {| on_status := exited 0 " M docs/index.md" "";
     on_add := exited 0 "" "";
     on_commit := exited 0 "[main 1a2b3c4] Auto-commit" "";
     on_push := exited 0 "" "To github.com:kb/kb.git";
     time := 1700000000 |}.

(** One modified file; the remote rejects the push. *)
Definition push_rejected : Canned :=
  {| on_status := exited 0 " M docs/index.md" "";
     on_add := exited 0 "" "";
     on_commit := exited 0 "[main 1a2b3c4] Auto-commit" "";
     on_push := exited 1 "" "error: failed to push some refs";
     time := 1700000000 |}.

(** One modified file; the commit is refused. *)
Definition commit_refused : Canned :=
  {| on_status := exited 0 " M docs/index.md" "";
     on_add := exited 0 "" "";
     on_commit := exited 128 "" "fatal: unable to auto-detect email address";
     on_push := exited 0 "" "";
     time := 1700000000 |}.


Import WatchChanges.

#[export] Instance posix_runtime : Runtime := {|
  sys_executable := "/usr/bin/python3";
  script_dir := "/srv/kb/scripts";
  cwd := "/srv/kb";
  str_of_exn := fun e =>
    match e with
    | WatchChanges.CalledProcessError _ rc =>
        "Command returned non-zero exit status " ++ Py.str_of_Z rc ++ "."
    end
|}.

(** A world at time [t] (in seconds) in which sleeps are exact and every
    child exits at once with the given status. *)
Definition world_at (t : Z) (statuses : list Z) : WatchChanges.World :=
  {| clock := t * us_per_s; overshoot := [];
     children := map (fun rc => (rc, 0%N)) statuses; trace := [] |}.

Definition file_event (kind path : string) : FileSystemEvent :=
  {| event_type := kind; src_path := path; is_directory := false |}.

Definition dir_event (kind path : string) : FileSystemEvent :=
  {| event_type := kind; src_path := path; is_directory := true |}.

Definition armed (debounce last : Z) : ChangeHandler :=
  {| debounce_time := debounce; last_modified := last * us_per_s;
     timer_running := true |}.

Definition idle (debounce last : Z) : ChangeHandler :=
  {| debounce_time := debounce; last_modified := last * us_per_s;
     timer_running := false |}.

End Doubles.

(** * Properties *)

Example strip_porcelain :
  Py.strip "  M docs/index.md  " = "M docs/index.md".
Proof. reflexivity. Qed.

Example basename_hidden :
  Py.basename "docs/guide/.index.md.swp" = ".index.md.swp".
Proof. reflexivity. Qed.

Example basename_trailing_slash : Py.basename "docs/guide/" = "".
Proof. reflexivity. Qed.

Example str_of_Z_5 : Py.str_of_Z 5 = "5".
Proof. reflexivity. Qed.

(** ** The commit pipeline of auto_commit.py *)

Module AutoCommitFacts.

Import AutoCommit.

Definition git_status : string := "git status --porcelain".
Definition git_add : string := "git add --all".
Definition git_push : string := "git push".

Definition git_commit (message : string) : string :=
  "git commit -m " ++ Py.dquote ++ message ++ Py.dquote.

(** The number of times [git push] occurs among command lines. *)
Definition pushes (l : list string) : nat := count_occ string_dec l git_push.

Section Facts.

Context `{Env : Environment}.

(** The two records [run_command] logs when the command fails. *)
Definition failure_records (command err : string) : list Py.record :=
  [(Py.ERROR, "Command failed: " ++ command); (Py.ERROR, "Error: " ++ err)].

(** The message [commit_changes] uses. *)
Definition message_of (message : option string) (w : World) : string :=
  match message with
  | None => "Auto-commit: Update documentation at " ++ strftime (now w)
  | Some m => m
  end.

Lemma run_command_eq (command : string) (st : State) :
  run_command command st =
  let p := fst (exec command (world st)) in
  let w' := snd (exec command (world st)) in
  if returncode p =? 0 then
    (Ok (Some (Py.strip (stdout p))),
     {| world := w'; cmds := cmds st ++ [command]; log := log st |})
  else
    (Ok None,
     {| world := w'; cmds := cmds st ++ [command];
        log := log st ++ failure_records command (stderr p) |}).
Proof.
  unfold run_command, try_except, bind, subprocess_run, ret.
  destruct (exec command (world st)) as [p w'] eqn:E; cbn [fst snd].
  destruct (returncode p =? 0); cbn.
  - reflexivity.
  - unfold failure_records. now rewrite <- app_assoc.
Qed.

(** [run_command] never raises, and answers [None] exactly on a non-zero
    exit status. *)
Lemma run_command_none (command : string) (st : State) :
  exists r st', run_command command st = (Ok r, st')
    /\ (r = None <-> returncode (fst (exec command (world st))) <> 0).
Proof.
  rewrite run_command_eq; cbn zeta.
  destruct (Z.eqb_spec (returncode (fst (exec command (world st)))) 0) as [E | E].
  - eexists _, _; split; [reflexivity |]. split; [discriminate | tauto].
  - eexists _, _; split; [reflexivity |]. tauto.
Qed.

Lemma commit_changes_eq (message : option string) (st : State) :
  commit_changes message st =
  let m := message_of message (world st) in
  let pa := fst (exec git_add (world st)) in
  let wa := snd (exec git_add (world st)) in
  let pc := fst (exec (git_commit m) wa) in
  let wc := snd (exec (git_commit m) wa) in
  if returncode pa =? 0 then
    if returncode pc =? 0 then
      (Ok true,
       {| world := wc; cmds := cmds st ++ [git_add; git_commit m];
          log := log st ++ [(Py.INFO, "Changes committed: " ++ m)] |})
    else
      (Ok false,
       {| world := wc; cmds := cmds st ++ [git_add; git_commit m];
          log := log st ++ failure_records (git_commit m) (stderr pc) |})
  else
    (Ok false,
     {| world := wa; cmds := cmds st ++ [git_add];
        log := log st ++ failure_records git_add (stderr pa) |}).
Proof.
  unfold commit_changes.
  assert (Hm : forall k : string -> M bool,
             bind (match message with
                   | None => bind datetime_now (fun timestamp =>
                       ret ("Auto-commit: Update documentation at "
                              ++ strftime timestamp))
                   | Some m => ret m
                   end) k st = k (message_of message (world st)) st).
  { intros k. destruct message; reflexivity. }
  rewrite Hm. unfold bind at 1. rewrite run_command_eq. cbn zeta.
  fold git_add.
  destruct (returncode (fst (exec git_add (world st))) =? 0); cbn [ret].
  - unfold bind at 1. rewrite run_command_eq. cbn zeta. cbn [world cmds log].
    fold (git_commit (message_of message (world st))).
    destruct (returncode _ =? 0); cbn.
    + now rewrite <- app_assoc.
    + now rewrite <- app_assoc.
  - reflexivity.
Qed.

Lemma push_changes_eq (st : State) :
  push_changes st =
  let p := fst (exec git_push (world st)) in
  let w' := snd (exec git_push (world st)) in
  if returncode p =? 0 then
    (Ok true,
     {| world := w'; cmds := cmds st ++ [git_push];
        log := log st ++ [(Py.INFO, "Changes pushed to remote repository")] |})
  else
    (Ok false,
     {| world := w'; cmds := cmds st ++ [git_push];
        log := log st ++ failure_records git_push (stderr p)
                 ++ [(Py.ERROR, "Failed to push changes")] |}).
Proof.
  unfold push_changes, bind at 1. rewrite run_command_eq. cbn zeta.
  fold git_push.
  destruct (returncode _ =? 0); cbn.
  - reflexivity.
  - now rewrite <- app_assoc.
Qed.

Lemma pushes_app (l1 l2 : list string) :
  pushes (l1 ++ l2) = (pushes l1 + pushes l2)%nat.
Proof. apply count_occ_app. Qed.

Lemma git_commit_not_push (m : string) : git_commit m <> git_push.
Proof. unfold git_commit, git_push. cbn. discriminate. Qed.

Lemma pushes_single (c : string) :
  c <> git_push -> forall l, pushes (l ++ [c]) = pushes l.
Proof.
  intros Hc l. rewrite pushes_app. unfold pushes at 2.
  rewrite count_occ_cons_neq by exact Hc. cbn. lia.
Qed.

Lemma pushes_push (l : list string) : pushes (l ++ [git_push]) = S (pushes l).
Proof.
  rewrite pushes_app. unfold pushes at 2.
  rewrite count_occ_cons_eq by reflexivity. cbn. lia.
Qed.

Lemma pushes_stage_commit (m : string) (l : list string) :
  pushes (l ++ [git_add; git_commit m]) = pushes l.
Proof.
  change (l ++ [git_add; git_commit m])%list
    with (l ++ [git_add] ++ [git_commit m])%list.
  rewrite app_assoc, pushes_single by apply git_commit_not_push.
  apply pushes_single. discriminate.
Qed.

(** Neither the status query nor [commit_changes] runs [git push]. *)
Lemma status_no_push (st : State) :
  pushes (cmds (snd (get_git_status st))) = pushes (cmds st).
Proof.
  unfold get_git_status. rewrite run_command_eq. cbv zeta.
  destruct (returncode _ =? 0); cbn [snd cmds]; apply pushes_single;
    discriminate.
Qed.

Lemma commit_changes_no_push (message : option string) (st : State) :
  pushes (cmds (snd (commit_changes message st))) = pushes (cmds st).
Proof.
  rewrite commit_changes_eq. cbv zeta.
  destruct (returncode _ =? 0); [destruct (returncode _ =? 0) |];
    cbn [snd cmds]; try apply pushes_stage_commit.
  apply pushes_single. discriminate.
Qed.

(** *** Computations that do not read the log *)

(** [c] behaves the same whatever has been logged before, and only appends
    to the log. *)
Definition log_blind {A : Type} (c : M A) : Prop :=
  forall w cs, exists r w' cs' rest, forall l,
    c {| world := w; cmds := cs; log := l |}
    = (r, {| world := w'; cmds := cs'; log := l ++ rest |}).

Lemma blind_ret {A : Type} (a : A) : log_blind (ret a).
Proof.
  intros w cs. exists (Ok a), w, cs, []. intros l.
  unfold ret. now rewrite app_nil_r.
Qed.

Lemma blind_bind {A B : Type} (c : M A) (k : A -> M B) :
  log_blind c -> (forall a, log_blind (k a)) -> log_blind (bind c k).
Proof.
  intros Hc Hk w cs.
  destruct (Hc w cs) as (r & w1 & cs1 & rest1 & E1).
  destruct r as [a | e].
  - destruct (Hk a w1 cs1) as (r2 & w2 & cs2 & rest2 & E2).
    exists r2, w2, cs2, (rest1 ++ rest2)%list. intros l.
    unfold bind. rewrite E1, E2. now rewrite app_assoc.
  - exists (Raise e), w1, cs1, rest1. intros l.
    unfold bind. now rewrite E1.
Qed.

Lemma blind_logger_info (msg : string) : log_blind (logger_info msg).
Proof.
  intros w cs. exists (Ok tt), w, cs, [(Py.INFO, msg)]. reflexivity.
Qed.

Lemma blind_time_sleep (secs : Z) : log_blind (time_sleep secs).
Proof.
  intros w cs. unfold time_sleep. destruct (secs <? 0).
  - eexists _, w, cs, []. intros l. cbn. now rewrite app_nil_r.
  - eexists _, _, cs, []. intros l. cbn. now rewrite app_nil_r.
Qed.

Lemma blind_run_command (command : string) : log_blind (run_command command).
Proof.
  intros w cs.
  destruct (returncode (fst (exec command w)) =? 0) eqn:E.
  - eexists _, _, _, []. intros l. rewrite run_command_eq.
    cbv zeta; cbn [world cmds log]. rewrite E, app_nil_r. reflexivity.
  - eexists _, _, _, _. intros l. rewrite run_command_eq.
    cbv zeta; cbn [world cmds log]. rewrite E. reflexivity.
Qed.

Lemma blind_commit_changes (message : option string) :
  log_blind (commit_changes message).
Proof.
  intros w cs.
  destruct (returncode (fst (exec git_add w)) =? 0) eqn:Ea;
    [destruct (returncode (fst (exec (git_commit (message_of message w))
                                  (snd (exec git_add w)))) =? 0) eqn:Ec |];
    eexists _, _, _, _; intros l; rewrite commit_changes_eq;
    cbv zeta; cbn [world cmds log]; rewrite Ea, ?Ec; reflexivity.
Qed.

Lemma blind_push_changes : log_blind push_changes.
Proof.
  intros w cs.
  destruct (returncode (fst (exec git_push w)) =? 0) eqn:E;
    eexists _, _, _, _; intros l; rewrite push_changes_eq;
    cbv zeta; cbn [world cmds log]; rewrite E; reflexivity.
Qed.

Lemma blind_round (interval : Z) : log_blind (auto_commit_round interval).
Proof.
  unfold auto_commit_round, get_git_status.
  apply blind_bind; [apply blind_run_command | intros status].
  apply blind_bind; [| intros _; apply blind_time_sleep].
  destruct (truthy status); [| apply blind_logger_info].
  apply blind_bind; [apply blind_logger_info | intros _].
  apply blind_bind; [apply blind_commit_changes | intros committed].
  destruct committed; [| apply blind_ret].
  apply blind_bind; [apply blind_push_changes | intros _; apply blind_ret].
Qed.

Lemma blind_rounds (n : nat) (interval : Z) : log_blind (rounds n interval).
Proof.
  induction n as [| n IH]; cbn [rounds].
  - apply blind_ret.
  - apply blind_bind; [apply blind_round | intros _; exact IH].
Qed.

(** *** The claims as the specification words them, where the script
    departs from the wording *)



(** *** The one-shot run and the periodic loop *)

(** C2. When the status command succeeds and prints nothing, the
    [--commit-only] run hands exactly one command line to the shell, the
    status query: nothing is staged, committed or pushed, the only record
    logged is "No changes to commit", and the world is the one the status
    query left, so it is the initial one whenever the query itself changes
    nothing. *)
Theorem clean_status_skips_everything (st : State) :
  returncode (fst (exec git_status (world st))) = 0 ->
  Py.strip (stdout (fst (exec git_status (world st)))) = "" ->
  main_commit_only st
  = (Ok tt, {| world := snd (exec git_status (world st));
               cmds := cmds st ++ [git_status];
               log := log st ++ [(Py.INFO, "No changes to commit")] |})
  /\ pushes (cmds (snd (main_commit_only st))) = pushes (cmds st)
  /\ (snd (exec git_status (world st)) = world st ->
      world (snd (main_commit_only st)) = world st).
Proof.
  intros Hrc Hout.
  assert (E : main_commit_only st
              = (Ok tt, {| world := snd (exec git_status (world st));
                           cmds := cmds st ++ [git_status];
                           log := log st ++ [(Py.INFO, "No changes to commit")] |})).
  { unfold main_commit_only, get_git_status, bind at 1.
    rewrite run_command_eq. cbv zeta. fold git_status.
    rewrite Hrc, Hout. reflexivity. }
  rewrite E. cbn [snd world cmds]. repeat split.
  - apply pushes_single. discriminate.
  - tauto.
Qed.

(** C3. In a [--commit-only] run that found changes, [git push] is handed
    to the shell once if [commit_changes] answered [True] and not at all if
    it answered [False]; it is the last command of the run whatever its
    exit status, so a failed push is neither repeated nor followed by any
    command that would undo the commit. *)
Theorem push_iff_committed (st st1 st2 : State) (status : option string)
  (committed : bool) :
  get_git_status st = (Ok status, st1) ->
  truthy status = true ->
  commit_changes None st1 = (Ok committed, st2) ->
  exists st',
    main_commit_only st = (Ok tt, st')
    /\ cmds st' = (cmds st2 ++ (if committed then [git_push] else []))%list
    /\ pushes (cmds st')
       = (pushes (cmds st) + (if committed then 1 else 0))%nat
    /\ world st'
       = (if committed then snd (exec git_push (world st2)) else world st2).
Proof.
  intros Hs Ht Hc.
  assert (Hp1 : pushes (cmds st1) = pushes (cmds st)).
  { pose proof (status_no_push st) as P. now rewrite Hs in P. }
  assert (Hp2 : pushes (cmds st2) = pushes (cmds st1)).
  { pose proof (commit_changes_no_push None st1) as P. now rewrite Hc in P. }
  unfold main_commit_only, bind at 1. rewrite Hs, Ht.
  unfold bind at 1. rewrite Hc.
  destruct committed.
  - unfold bind. rewrite push_changes_eq. cbv zeta.
    destruct (returncode _ =? 0); cbn [ret];
      (eexists; split; [reflexivity |]; cbn [cmds world]; repeat split;
       rewrite pushes_push, Hp2, Hp1; lia).
  - eexists; split; [reflexivity |]. cbn [cmds world].
    rewrite app_nil_r. repeat split. rewrite Hp2, Hp1. lia.
Qed.



(** C10. Two runs of the loop from the same state that differ only in
    [path_to_watch] end their [n]-th round with the same outcome, the same
    world and the same command lines in the same order; their logs differ
    in the first record only, the one that names the path. *)
Theorem path_only_changes_log (p1 p2 : string) (interval : Z) (n : nat)
  (st : State) :
  exists r w' cs' rest,
    auto_commit_changes p1 interval n st
    = (r, {| world := w'; cmds := cs';
             log := log st
                    ++ (Py.INFO, "Monitoring " ++ p1 ++ " for changes every "
                                   ++ Py.str_of_Z interval ++ " seconds")
                    :: rest |})
    /\ auto_commit_changes p2 interval n st
       = (r, {| world := w'; cmds := cs';
                log := log st
                       ++ (Py.INFO, "Monitoring " ++ p2 ++ " for changes every "
                                      ++ Py.str_of_Z interval ++ " seconds")
                       :: rest |}).
Proof.
  destruct (blind_rounds n interval (world st) (cmds st))
    as (r & w' & cs' & rest & E).
  exists r, w', cs', rest.
  split; unfold auto_commit_changes, bind, logger_info; rewrite E;
    now rewrite <- app_assoc.
Qed.

End Facts.

(** *** Concrete runs *)

Import Doubles.

Lemma clean_status_skips_everything_witness :
  main_commit_only (fresh clean_repo)
  = (Ok tt, {| world := clean_repo; cmds := [git_status];
               log := [(Py.INFO, "No changes to commit")] |}).
Proof.
  apply (clean_status_skips_everything (fresh clean_repo)); reflexivity.
Defined.

Lemma push_iff_committed_witness :
  exists st',
    main_commit_only (fresh push_rejected) = (Ok tt, st')
    /\ pushes (cmds st') = 1%nat.
Proof.
  destruct (push_iff_committed (fresh push_rejected)
              (snd (get_git_status (fresh push_rejected)))
              (snd (commit_changes None
                      (snd (get_git_status (fresh push_rejected)))))
              (Some "M docs/index.md") true)
    as (st' & E & _ & P & _); [reflexivity | reflexivity | reflexivity |].
  exists st'. split; [exact E | exact P].
Defined.




Example commit_only_on_dirty_repo :
  cmds (snd (main_commit_only (fresh dirty_repo)))
  = [git_status; git_add;
     git_commit "Auto-commit: Update documentation at 1700000000";
     git_push].
Proof. reflexivity. Qed.

Example commit_only_commit_refused :
  snd (main_commit_only (fresh commit_refused))
  = {| world := commit_refused;
       cmds := [git_status; git_add;
                git_commit "Auto-commit: Update documentation at 1700000000"];
       log := [(Py.ERROR,
                "Command failed: "
                  ++ git_commit "Auto-commit: Update documentation at 1700000000");
               (Py.ERROR, "Error: fatal: unable to auto-detect email address");
               (Py.ERROR, "Failed to commit changes")] |}.
Proof. reflexivity. Qed.

End AutoCommitFacts.

(** ** The debounce handler of watch_changes.py *)

Module WatchChangesFacts.

Import WatchChanges.

(** [k] polling sleeps of one second each. *)
Fixpoint ticks (k : nat) (w : World) : World :=
  match k with
  | O => w
  | S k' => ticks k' (time_sleep 1 w)
  end.

(** The test of the polling loop: the quiet time has reached the debounce
    time. *)
Definition settled (self : ChangeHandler) (w : World) : bool :=
  debounce_time self * us_per_s <=? clock w - last_modified self.

(** The moment from which the loop fires. *)
Definition deadline (self : ChangeHandler) : Z :=
  last_modified self + debounce_time self * us_per_s.

(** [k] is the first poll at which the loop sees the tree settled. *)
Definition first_settled (self : ChangeHandler) (w : World) (k : nat) : Prop :=
  (forall i, (i < k)%nat -> settled self (ticks i w) = false)
  /\ settled self (ticks k w) = true.

(** The exit status of the next child process. *)
Definition next_status (w : World) : Z := fst (hd (0, 0%N) (children w)).

(** The call has slept or has run the commit script. *)
Definition waited (before after : World) : Prop :=
  sleeps (trace after) <> sleeps (trace before)
  \/ firings (trace after) <> firings (trace before).

Section Facts.

Context `{RT : Runtime}.

Definition settled_msg (self : ChangeHandler) : string :=
  "Changes settled after " ++ Py.str_of_Z (debounce_time self) ++ " seconds".

Definition detected_msg (event : FileSystemEvent) : string :=
  "Change detected: " ++ src_path event ++ " (" ++ event_type event ++ ")".

(** The record that closes a commit run. *)
Definition outcome_record (rc : Z) : effect :=
  if rc =? 0 then Logged Py.INFO "Auto commit completed successfully"
  else Logged Py.ERROR
         ("Auto commit failed: " ++ str_of_exn (CalledProcessError commit_argv rc)).

(** The world after [_trigger_commit]. *)
Definition after_commit (w : World) : World :=
  {| clock := clock w + Z.of_N (snd (hd (0, 0%N) (children w)));
     overshoot := overshoot w;
     children := tl (children w);
     trace := trace w ++ [Logged Py.INFO "Triggering auto commit";
                          Spawned commit_argv (clock w);
                          outcome_record (next_status w)] |}.

(** The world after the loop has seen the tree settled in [w]. *)
Definition fired (self : ChangeHandler) (w : World) : World :=
  after_commit (logger_info (settled_msg self) w).

Lemma trigger_commit_eq (w : World) : _trigger_commit w = (Ok tt, after_commit w).
Proof.
  unfold _trigger_commit, subprocess_run, after_commit, next_status.
  cbn [logger_info emit children clock overshoot trace].
  destruct (hd (0, 0%N) (children w)) as [rc took]; cbn [fst snd].
  unfold outcome_record.
  destruct (rc =? 0); unfold logger_info, logger_error, emit;
    cbn [clock overshoot children trace]; now rewrite <- !app_assoc.
Qed.

Lemma start_timer_step (fuel : nat) (self : ChangeHandler) (w : World) :
  _start_timer (S fuel) self w =
  if settled self w then Some (Ok tt, set_timer_running false self, fired self w)
  else _start_timer fuel self (time_sleep 1 w).
Proof.
  cbn [_start_timer]. fold (settled self w). fold (settled_msg self).
  destruct (settled self w); [| reflexivity].
  now rewrite trigger_commit_eq.
Qed.

Lemma firings_app (a b : list effect) :
  firings (a ++ b) = (firings a ++ firings b)%list.
Proof.
  induction a as [| e a IH]; [reflexivity |].
  destruct e; cbn; now rewrite IH.
Qed.

Lemma sleeps_app (a b : list effect) :
  sleeps (a ++ b) = (sleeps a + sleeps b)%nat.
Proof.
  induction a as [| e a IH]; [reflexivity |].
  destruct e; cbn; now rewrite IH.
Qed.

Lemma clock_time_sleep (w : World) :
  clock w + us_per_s <= clock (time_sleep 1 w).
Proof.
  unfold time_sleep. cbn [clock].
  pose proof (N2Z.is_nonneg (hd 0%N (overshoot w))). lia.
Qed.

Lemma ticks_succ (k : nat) (w : World) :
  ticks (S k) w = time_sleep 1 (ticks k w).
Proof.
  revert w. induction k as [| k IH]; intros w; [reflexivity |].
  change (ticks (S (S k)) w) with (ticks (S k) (time_sleep 1 w)).
  now rewrite IH.
Qed.

Lemma ticks_trace (k : nat) (w : World) :
  firings (trace (ticks k w)) = firings (trace w)
  /\ sleeps (trace (ticks k w)) = (sleeps (trace w) + k)%nat.
Proof.
  revert w. induction k as [| k IH]; intros w; cbn [ticks].
  - split; [reflexivity | lia].
  - destruct (IH (time_sleep 1 w)) as [F S]. rewrite F, S.
    cbn [time_sleep trace]. rewrite firings_app, sleeps_app. cbn.
    rewrite app_nil_r. split; [reflexivity | lia].
Qed.

Lemma ticks_clock_exact (k : nat) (w : World) :
  overshoot w = [] ->
  clock (ticks k w) = clock w + Z.of_nat k * us_per_s.
Proof.
  revert w. induction k as [| k IH]; intros w Ho; cbn [ticks].
  - lia.
  - rewrite IH by (cbn; now rewrite Ho). cbn [time_sleep clock].
    rewrite Ho. cbn [hd]. lia.
Qed.

Lemma fired_trace (self : ChangeHandler) (w : World) :
  firings (trace (fired self w)) = (firings (trace w) ++ [clock w])%list
  /\ sleeps (trace (fired self w)) = sleeps (trace w)
  /\ trace (fired self w)
     = (trace w ++ [Logged Py.INFO (settled_msg self);
                    Logged Py.INFO "Triggering auto commit";
                    Spawned commit_argv (clock w);
                    outcome_record (next_status w)])%list.
Proof.
  assert (T : trace (fired self w)
              = (trace w ++ [Logged Py.INFO (settled_msg self);
                             Logged Py.INFO "Triggering auto commit";
                             Spawned commit_argv (clock w);
                             outcome_record (next_status w)])%list).
  { unfold fired, after_commit, logger_info, emit, next_status.
    cbn [trace clock children]. now rewrite <- app_assoc. }
  rewrite T, firings_app, sleeps_app. unfold outcome_record.
  destruct (next_status w =? 0); cbn; repeat split; lia.
Qed.

(** The loop stops at the first poll that sees the tree settled. *)
Lemma start_timer_first_settled (self : ChangeHandler) (k : nat) :
  forall (w : World) (fuel : nat),
    first_settled self w k -> (k < fuel)%nat ->
    _start_timer fuel self w
    = Some (Ok tt, set_timer_running false self, fired self (ticks k w)).
Proof.
  induction k as [| k IH]; intros w fuel [Hlt Hk] Hf;
    (destruct fuel as [| fuel]; [lia |]); rewrite start_timer_step.
  - cbn [ticks] in Hk. now rewrite Hk.
  - assert (H0 : settled self w = false) by (apply (Hlt O); lia).
    rewrite H0. apply IH; [| lia].
    split; [| exact Hk].
    intros i Hi. apply (Hlt (S i)). lia.
Qed.

(** Each sleep moves the clock by a second at least, so a poll that sees
    the tree settled exists. *)
Lemma settled_within (self : ChangeHandler) (n : nat) :
  forall w : World,
    deadline self - clock w <= Z.of_nat n * us_per_s ->
    exists k, (k <= n)%nat /\ first_settled self w k.
Proof.
  induction n as [| n IH]; intros w Hn.
  - exists O. split; [lia |]. split; [intros i Hi; lia |].
    unfold settled, deadline in *. cbn [ticks]. apply Z.leb_le. lia.
  - destruct (settled self w) eqn:Hs.
    + exists O. split; [lia |]. split; [intros i Hi; lia | exact Hs].
    + destruct (IH (time_sleep 1 w)) as (k & Hk & Hlt & Hset).
      { pose proof (clock_time_sleep w). unfold us_per_s in *. lia. }
      exists (S k). split; [lia |]. split; [| exact Hset].
      intros [| i] Hi; [exact Hs | apply Hlt; lia].
Qed.

(** A bound on the number of polls. *)
Definition polls_needed (self : ChangeHandler) (w : World) : nat :=
  Z.to_nat ((deadline self - clock w + us_per_s - 1) / us_per_s).

Lemma settled_exists (self : ChangeHandler) (w : World) :
  exists k, (k <= polls_needed self w)%nat /\ first_settled self w k.
Proof.
  apply settled_within. unfold polls_needed.
  set (r := deadline self - clock w).
  destruct (Z_lt_le_dec r 0) as [Hr | Hr].
  - unfold us_per_s. nia.
  - rewrite Z2Nat.id by (apply Z.div_pos; unfold us_per_s; lia).
    pose proof (Z.mul_div_le (r + us_per_s - 1) us_per_s) as P.
    pose proof (Z.mod_pos_bound (r + us_per_s - 1) us_per_s) as Q.
    pose proof (Z.div_mod (r + us_per_s - 1) us_per_s) as D.
    unfold us_per_s in *. lia.
Qed.

(** Until that poll the loop is still running. *)
Lemma start_timer_still_waiting (self : ChangeHandler) (k : nat) :
  forall (w : World) (fuel : nat),
    first_settled self w k -> (fuel <= k)%nat ->
    _start_timer fuel self w = None.
Proof.
  induction k as [| k IH]; intros w fuel [Hlt Hk] Hf;
    (destruct fuel as [| fuel]; [reflexivity |]); [lia |].
  rewrite start_timer_step.
  assert (H0 : settled self w = false) by (apply (Hlt O); lia).
  rewrite H0. apply IH; [| lia].
  split; [| exact Hk].
  intros i Hi. apply (Hlt (S i)). lia.
Qed.

Lemma ticks_trace_eq (k : nat) (w : World) :
  trace (ticks k w) = (trace w ++ repeat (Slept 1) k)%list.
Proof.
  revert w. induction k as [| k IH]; intros w; cbn [ticks repeat].
  - now rewrite app_nil_r.
  - rewrite IH. cbn [time_sleep trace]. now rewrite <- app_assoc.
Qed.

Lemma ticks_children (k : nat) (w : World) : children (ticks k w) = children w.
Proof.
  revert w. induction k as [| k IH]; intros w; [reflexivity |].
  cbn [ticks]. now rewrite IH.
Qed.

(** A qualifying event handled while idle: the call runs one whole wait
    and returns idle, with the time stamp of its entry. *)
Lemma on_any_event_idle (self : ChangeHandler) (event : FileSystemEvent)
  (w : World) :
  qualifies event = true ->
  timer_running self = false ->
  let self1 := set_timer_running true (set_last_modified (clock w) self) in
  let w1 := logger_info (detected_msg event) w in
  exists k,
    first_settled self1 w1 k
    /\ forall fuel, (k < fuel)%nat ->
         on_any_event fuel self event w
         = Some (Ok tt, set_timer_running false self1, fired self1 (ticks k w1)).
Proof.
  intros Hq Hidle self1 w1.
  destruct (settled_exists self1 w1) as (k & _ & Hk).
  exists k. split; [exact Hk |]. intros fuel Hf.
  unfold on_any_event. unfold qualifies in Hq.
  apply negb_true_iff in Hq. rewrite Hq.
  fold (detected_msg event). cbn [logger_info emit clock].
  cbn [set_last_modified timer_running]. rewrite Hidle. cbn [negb].
  now apply start_timer_first_settled.
Qed.

(** A qualifying event handled while armed. *)
Lemma on_any_event_armed (fuel : nat) (self : ChangeHandler)
  (event : FileSystemEvent) (w : World) :
  qualifies event = true ->
  timer_running self = true ->
  on_any_event fuel self event w
  = Some (Ok tt, set_last_modified (clock w) self,
          logger_info (detected_msg event) w).
Proof.
  intros Hq Hs. unfold on_any_event. unfold qualifies in Hq.
  apply negb_true_iff in Hq. rewrite Hq.
  cbn [set_last_modified timer_running]. rewrite Hs. reflexivity.
Qed.

Lemma logging_is_not_waiting (msg : string) (w : World) :
  ~ waited w (logger_info msg w).
Proof.
  unfold waited, logger_info, emit. cbn [trace].
  rewrite sleeps_app, firings_app. cbn. rewrite app_nil_r.
  intros [H | H]; [lia | congruence].
Qed.

(** The observer thread hands every qualifying event of its queue to an
    idle handler, and each of them costs one commit run. *)
Lemma dispatch_idle (queue : list (Z * FileSystemEvent)) :
  forall (self : ChangeHandler) (w : World),
    timer_running self = false ->
    Forall (fun p => qualifies (snd p) = true) queue ->
    exists n self' w',
      (forall fuel, (n < fuel)%nat ->
         dispatch fuel queue self w = Some (Ok tt, self', w'))
      /\ timer_running self' = false
      /\ List.length (firings (trace w'))
         = (List.length (firings (trace w)) + List.length queue)%nat.
Proof.
  induction queue as [| [arrival event] rest IH]; intros self w Hidle Hall.
  - exists O, self, w. repeat split; [assumption | cbn; lia].
  - inversion Hall as [| p q Hq Hrest]; subst. cbn [snd] in Hq.
    destruct (on_any_event_idle self event (await arrival w) Hq Hidle)
      as (k & _ & Ek).
    set (self1 := set_timer_running true
                    (set_last_modified (clock (await arrival w)) self)) in *.
    set (w1 := fired self1
                 (ticks k (logger_info (detected_msg event) (await arrival w))))
      in *.
    destruct (IH (set_timer_running false self1) w1 eq_refl Hrest)
      as (n & self' & w' & En & Hidle' & Hlen).
    exists (Nat.max k n), self', w'. repeat split; [| exact Hidle' |].
    + intros fuel Hf. cbn [dispatch]. rewrite Ek by lia. apply En. lia.
    + rewrite Hlen. unfold w1.
      destruct (fired_trace self1
                  (ticks k (logger_info (detected_msg event) (await arrival w))))
        as (F & _ & _).
      rewrite F, length_app.
      destruct (ticks_trace k (logger_info (detected_msg event) (await arrival w)))
        as [F2 _].
      rewrite F2. unfold logger_info, emit, await. cbn [trace].
      rewrite firings_app. cbn. rewrite app_nil_r. lia.
Qed.

(** *** The claims *)

(** The branch of [on_any_event] for a set flag, taken alone: it logs the
    change and sets [last_modified], the flag stays true, the call neither
    sleeps nor runs the commit script; a call that slept or ran the commit
    script was entered with [timer_running] false.  The flag is set and
    cleared inside one call of the handler, and the observer makes its
    calls one after the other ([dispatch_idle]): no call is entered with
    the flag set. *)
Lemma armed_branch_only_logs (fuel : nat) (self : ChangeHandler)
  (event : FileSystemEvent) (w : World) :
  qualifies event = true ->
  timer_running self = true ->
  on_any_event fuel self event w
  = Some (Ok tt, set_last_modified (clock w) self,
          logger_info (detected_msg event) w)
  /\ timer_running (set_last_modified (clock w) self) = true
  /\ ~ waited w (logger_info (detected_msg event) w)
  /\ (forall self0 r self' w',
        on_any_event fuel self0 event w = Some (r, self', w') ->
        waited w w' -> timer_running self0 = false).
Proof.
  intros Hq Harmed.
  split; [now apply on_any_event_armed |].
  split; [exact Harmed |].
  split; [apply logging_is_not_waiting |].
  intros self0 r self' w' E Hw.
  destruct (timer_running self0) eqn:T; [| reflexivity].
  rewrite (on_any_event_armed fuel self0 event w Hq T) in E.
  inversion E; subst. now apply logging_is_not_waiting in Hw.
Qed.

(** C5. An event on a directory, or on a path whose base name starts with a
    dot, leaves the handler and the world as they were: no time stamp, no
    flag, no log record, no sleep, no commit run.  Every other event, of any
    kind, is logged and sets [last_modified] to the time of its handling. *)
Theorem ignored_events_change_nothing (self : ChangeHandler)
  (event : FileSystemEvent) (w : World) :
  (is_directory event = true
   \/ Py.startswith_dot (Py.basename (src_path event)) = true ->
   forall fuel, on_any_event fuel self event w = Some (Ok tt, self, w))
  /\ (is_directory event = false ->
      Py.startswith_dot (Py.basename (src_path event)) = false ->
      exists k, forall fuel, (k < fuel)%nat ->
        exists self' w',
          on_any_event fuel self event w = Some (Ok tt, self', w')
          /\ last_modified self' = clock w
          /\ In (Logged Py.INFO (detected_msg event)) (trace w')).
Proof.
  split.
  - intros H fuel. unfold on_any_event.
    destruct H as [H | H]; rewrite H; [reflexivity |].
    now rewrite orb_true_r.
  - intros Hd Hh.
    assert (Hq : qualifies event = true).
    { unfold qualifies. now rewrite Hd, Hh. }
    destruct (timer_running self) eqn:T.
    + exists O. intros fuel _. eexists _, _.
      split; [now apply on_any_event_armed |].
      split; [reflexivity |].
      unfold logger_info, emit. cbn [trace]. apply in_or_app. right. now left.
    + destruct (on_any_event_idle self event w Hq T) as (k & _ & E).
      exists k. intros fuel Hf. eexists _, _.
      split; [now apply E |].
      split; [reflexivity |].
      match goal with |- In _ (trace (fired ?s ?x)) =>
        destruct (fired_trace s x) as (_ & _ & Tr); rewrite Tr end.
      apply in_or_app. left. rewrite ticks_trace_eq.
      apply in_or_app. left.
      unfold logger_info, emit. cbn [trace]. apply in_or_app. right. now left.
Qed.

(** C7. From a waiting handler the loop polls once a second.  There is a
    first poll [k] at which the quiet time has reached the debounce time:
    at every earlier poll the quiet time is below it and the loop is still
    running; at poll [k] the clock is at or past
    [last_modified + debounce_time], the commit script is run once, at that
    moment, and the handler is left idle.  With sleeps of exactly one second
    that moment is less than a second past the later of the deadline and
    the start of the wait. *)
Theorem waiting_fires_at_first_quiet_tick (self : ChangeHandler) (w : World) :
  timer_running self = true ->
  exists k,
    (k <= polls_needed self w)%nat
    /\ (forall i, (i < k)%nat ->
          clock (ticks i w) - last_modified self < debounce_time self * us_per_s)
    /\ (forall fuel, (fuel <= k)%nat -> _start_timer fuel self w = None)
    /\ deadline self <= clock (ticks k w)
    /\ (forall fuel, (k < fuel)%nat ->
          _start_timer fuel self w
          = Some (Ok tt, set_timer_running false self, fired self (ticks k w)))
    /\ timer_running (set_timer_running false self) = false
    /\ firings (trace (fired self (ticks k w)))
       = (firings (trace w) ++ [clock (ticks k w)])%list
    /\ sleeps (trace (fired self (ticks k w))) = (sleeps (trace w) + k)%nat
    /\ (overshoot w = [] ->
        clock (ticks k w) < Z.max (clock w) (deadline self) + us_per_s).
Proof.
  intros _.
  destruct (settled_exists self w) as (k & Hb & Hk).
  exists k. split; [exact Hb |].
  pose proof Hk as [Hlt Hset].
  split.
  { intros i Hi. specialize (Hlt i Hi). unfold settled in Hlt.
    apply Z.leb_gt in Hlt. exact Hlt. }
  split; [intros fuel Hf; now apply (start_timer_still_waiting self k) |].
  split.
  { unfold settled in Hset. apply Z.leb_le in Hset. unfold deadline. lia. }
  split; [intros fuel Hf; now apply start_timer_first_settled |].
  split; [reflexivity |].
  destruct (fired_trace self (ticks k w)) as (F & S & _).
  destruct (ticks_trace k w) as [F2 S2].
  split; [now rewrite F, F2 |].
  split; [now rewrite S, S2 |].
  intros Ho. destruct k as [| k].
  - cbn [ticks]. unfold us_per_s. lia.
  - assert (Hprev : settled self (ticks k w) = false) by (apply Hlt; lia).
    unfold settled in Hprev. apply Z.leb_gt in Hprev.
    rewrite ticks_clock_exact in * by exact Ho.
    unfold deadline. unfold us_per_s in *. lia.
Qed.

(** C8. Whatever the exit status of the commit script, the wait ends
    normally: [_trigger_commit] turns a non-zero status into an error
    record, no exception leaves [_start_timer], the script has been run
    once and [timer_running] is false.  The next qualifying event therefore
    starts a wait of its own, which again runs the script once and leaves
    the handler idle. *)
Theorem firing_returns_to_idle (self : ChangeHandler) (w : World)
  (event : FileSystemEvent) :
  qualifies event = true ->
  exists k w',
    (forall fuel, (k < fuel)%nat ->
       _start_timer fuel self w
       = Some (Ok tt, set_timer_running false self, w'))
    /\ timer_running (set_timer_running false self) = false
    /\ (exists pre,
          trace w' = (pre ++ [Spawned commit_argv (clock (ticks k w));
                              outcome_record (next_status w)])%list)
    /\ List.length (firings (trace w')) = S (List.length (firings (trace w)))
    /\ (exists k2 self2 w2,
          (forall fuel, (k2 < fuel)%nat ->
             on_any_event fuel (set_timer_running false self) event w'
             = Some (Ok tt, self2, w2))
          /\ timer_running self2 = false
          /\ List.length (firings (trace w2))
             = S (List.length (firings (trace w')))).
Proof.
  intros Hq.
  destruct (settled_exists self w) as (k & _ & Hk).
  exists k, (fired self (ticks k w)).
  split; [intros fuel Hf; now apply start_timer_first_settled |].
  split; [reflexivity |].
  destruct (fired_trace self (ticks k w)) as (F & _ & T).
  destruct (ticks_trace k w) as [F2 _].
  split.
  { exists (trace (ticks k w)
              ++ [Logged Py.INFO (settled_msg self);
                  Logged Py.INFO "Triggering auto commit"])%list.
    rewrite T, <- app_assoc. unfold next_status.
    now rewrite ticks_children. }
  split; [rewrite F, F2, length_app; cbn; lia |].
  destruct (on_any_event_idle (set_timer_running false self) event
              (fired self (ticks k w)) Hq eq_refl) as (k2 & _ & E).
  eexists k2, _, _. split; [exact E |]. split; [reflexivity |].
  match goal with |- context [fired ?s (ticks k2 ?x)] =>
    destruct (fired_trace s (ticks k2 x)) as (G & _ & _);
    destruct (ticks_trace k2 x) as [G2 _]
  end.
  rewrite G, G2, length_app. unfold logger_info, emit. cbn [trace].
  rewrite firings_app. cbn. rewrite app_nil_r. lia.
Qed.

End Facts.

(** *** Concrete runs *)

Import Doubles.

Definition index_modified : FileSystemEvent :=
  file_event "modified" "docs/index.md".

Definition swap_file_created : FileSystemEvent :=
  file_event "created" "docs/.index.md.swp".

Definition folder_created : FileSystemEvent :=
  dir_event "created" "docs/guides".

Definition notes_modified : FileSystemEvent :=
  file_event "modified" "docs/notes.md".

(** C6, on the scenario of the specification: debounce time 5 s, two
    changes of the same burst at 0 s and at 2 s.  The wait started by the
    first change runs inside its handler call and reads a [last_modified]
    that nothing advances meanwhile, so the commit script runs at 5 s; the
    second change is handled after that call has returned, starts a wait of
    its own and the script runs again at 10 s.  A longer burst, one change
    every 2 s to one of two files in turn, gets one commit run every 5 s. *)
Theorem burst_fires_once_per_event :
  (exists self' w',
     watch_directory "docs" 5 20
       [(0, index_modified); (2 * us_per_s, index_modified)] (world_at 0 [])
     = Some (Ok tt, self', w')
     /\ firings (trace w') = [5 * us_per_s; 10 * us_per_s]
     /\ last_modified self' = 5 * us_per_s)
  /\ (exists self' w',
        watch_directory "docs" 5 20
          [(0, index_modified); (2 * us_per_s, notes_modified);
           (4 * us_per_s, index_modified); (6 * us_per_s, notes_modified)]
          (world_at 0 [])
        = Some (Ok tt, self', w')
        /\ firings (trace w')
           = [5 * us_per_s; 10 * us_per_s; 15 * us_per_s; 20 * us_per_s]).
Proof.
  split; eexists _, _; (split; [vm_compute; reflexivity |]);
    vm_compute; repeat split; reflexivity.
Qed.

(** C1, on a change that arrives during a wait: debounce time 5 s, one
    file modified at 0 s and another at 2 s.  The call for the first change
    is entered idle, waits and returns at 5 s, idle again: the flag was set
    for the time of that call only.  The second change arrived at 2 s,
    during that wait; the observer hands it over once the call has
    returned, at 5 s, to a handler whose flag is off.  Handling it does not
    stop at the time stamp (which becomes 5 s, not 2 s): the call sleeps
    five more times and runs the commit script a second time, at 10 s. *)
Theorem event_during_wait_starts_second_wait :
  exists self1 w1 self2 w2,
    on_any_event 20 (init 5 (world_at 0 [])) index_modified
      (await 0 (world_at 0 []))
    = Some (Ok tt, self1, w1)
    /\ clock w1 = 5 * us_per_s
    /\ timer_running self1 = false
    /\ firings (trace w1) = [5 * us_per_s]
    /\ clock (await (2 * us_per_s) w1) = 5 * us_per_s
    /\ on_any_event 20 self1 notes_modified (await (2 * us_per_s) w1)
       = Some (Ok tt, self2, w2)
    /\ last_modified self2 = 5 * us_per_s
    /\ waited w1 w2
    /\ sleeps (trace w2) = (sleeps (trace w1) + 5)%nat
    /\ firings (trace w2) = [5 * us_per_s; 10 * us_per_s]
    /\ dispatch 20 [(0, index_modified); (2 * us_per_s, notes_modified)]
         (init 5 (world_at 0 [])) (world_at 0 [])
       = Some (Ok tt, self2, w2).
Proof.
  eexists _, _, _, _.
  split; [vm_compute; reflexivity |].
  do 4 (split; [vm_compute; reflexivity |]).
  split; [vm_compute; reflexivity |].
  split; [vm_compute; reflexivity |].
  split; [left; vm_compute; discriminate |].
  repeat split; vm_compute; reflexivity.
Qed.

Lemma ignored_events_change_nothing_witness :
  on_any_event 1 (idle 5 0) swap_file_created (world_at 2 [])
  = Some (Ok tt, idle 5 0, world_at 2 [])
  /\ on_any_event 1 (idle 5 0) folder_created (world_at 2 [])
     = Some (Ok tt, idle 5 0, world_at 2 []).
Proof.
  split.
  - apply (ignored_events_change_nothing (idle 5 0) swap_file_created
             (world_at 2 [])). right. reflexivity.
  - apply (ignored_events_change_nothing (idle 5 0) folder_created
             (world_at 2 [])). left. reflexivity.
Defined.

Lemma waiting_fires_at_first_quiet_tick_witness :
  exists k,
    (k <= 5)%nat
    /\ deadline (armed 5 0) <= clock (ticks k (world_at 0 []))
    /\ clock (ticks k (world_at 0 [])) < 6 * us_per_s.
Proof.
  destruct (waiting_fires_at_first_quiet_tick (armed 5 0) (world_at 0 [])
              eq_refl)
    as (k & Hk & _ & _ & Hd & _ & _ & _ & _ & Hx).
  exists k. split; [exact Hk |]. split; [exact Hd |].
  exact (Hx eq_refl).
Defined.

Lemma firing_returns_to_idle_witness :
  exists k w',
    forall fuel, (k < fuel)%nat ->
      _start_timer fuel (armed 5 0) (world_at 0 [1])
      = Some (Ok tt, idle 5 0, w').
Proof.
  destruct (firing_returns_to_idle (armed 5 0) (world_at 0 [1])
              index_modified eq_refl)
    as (k & w' & E & _).
  exists k, w'. exact E.
Defined.

Example start_timer_failed_commit :
  _start_timer 6 (armed 5 0) (world_at 0 [1])
  = Some (Ok tt, idle 5 0,
          {| clock := 5 * us_per_s; overshoot := []; children := [];
             trace := [Slept 1; Slept 1; Slept 1; Slept 1; Slept 1;
                       Logged Py.INFO "Changes settled after 5 seconds";
                       Logged Py.INFO "Triggering auto commit";
                       Spawned commit_argv (5 * us_per_s);
                       Logged Py.ERROR
                         "Auto commit failed: Command returned non-zero exit status 1."] |}).
Proof. reflexivity. Qed.

Example absolute_drops_dots_and_empty_parts :
  absolute "docs" = "/srv/kb/docs"
  /\ absolute "./docs/" = "/srv/kb/docs"
  /\ absolute "docs//guides/../." = "/srv/kb/docs/guides/.."
  /\ absolute EmptyString = "/srv/kb"
  /\ absolute "///srv//wiki/" = "/srv/wiki"
  /\ absolute "//srv/wiki" = "//srv/wiki".
Proof. repeat split; reflexivity. Qed.

Example start_timer_still_polling :
  _start_timer 5 (armed 5 0) (world_at 0 []) = None.
Proof. reflexivity. Qed.

End WatchChangesFacts.

(** * Further properties *)

(** ** Stripping and base names *)

Module PyFacts.

Import Py.

(** Every character is white space. *)
Fixpoint blank (s : string) : bool :=
  match s with
  | EmptyString => true
  | String c r => isspace c && blank r
  end.

(** The last character, if any, is white space. *)
Fixpoint ends_with_space (s : string) : bool :=
  match s with
  | EmptyString => false
  | String c EmptyString => isspace c
  | String _ r => ends_with_space r
  end.

Definition starts_with_space (s : string) : bool :=
  match s with
  | EmptyString => false
  | String c _ => isspace c
  end.

(** No character is a slash. *)
Fixpoint no_slash (s : string) : bool :=
  match s with
  | EmptyString => true
  | String c r => negb (Ascii.eqb c "/"%char) && no_slash r
  end.

Lemma rev_onto_app (s t acc : string) :
  rev_onto (s ++ t) acc = rev_onto t (rev_onto s acc).
Proof.
  revert acc. induction s as [| c s IH]; intros acc; cbn; [reflexivity |].
  apply IH.
Qed.

Lemma rev_snoc (s : string) (c : ascii) :
  rev (s ++ String c EmptyString) = String c (rev s).
Proof. unfold rev. now rewrite rev_onto_app. Qed.

Lemma append_assoc (a b c : string) : (a ++ b) ++ c = a ++ (b ++ c).
Proof. induction a as [| x a IH]; cbn; [reflexivity | now rewrite IH]. Qed.

Lemma rev_onto_spec (s acc : string) : rev_onto s acc = rev s ++ acc.
Proof.
  unfold rev. revert acc. induction s as [| c s IH]; intros acc; cbn.
  - reflexivity.
  - rewrite (IH (String c acc)), (IH (String c EmptyString)).
    now rewrite append_assoc.
Qed.

Lemma rev_cons (c : ascii) (s : string) :
  rev (String c s) = rev s ++ String c EmptyString.
Proof. unfold rev at 1. cbn. apply rev_onto_spec. Qed.

Lemma lstrip_snoc (s : string) (c : ascii) :
  lstrip (s ++ String c EmptyString)
  = match lstrip s with
    | EmptyString => if isspace c then EmptyString else String c EmptyString
    | x => x ++ String c EmptyString
    end.
Proof.
  induction s as [| d s IH]; cbn.
  - reflexivity.
  - destruct (isspace d); [exact IH | reflexivity].
Qed.

(** [rstrip] read from the front. *)
Lemma rstrip_cons (c : ascii) (s : string) :
  rstrip (String c s)
  = match rstrip s with
    | EmptyString => if isspace c then EmptyString else String c EmptyString
    | x => String c x
    end.
Proof.
  unfold rstrip. rewrite rev_cons, lstrip_snoc.
  destruct (lstrip (rev s)) as [| d x] eqn:E.
  - cbn. now destruct (isspace c).
  - rewrite rev_snoc. rewrite rev_cons.
    destruct (rev x ++ String d EmptyString) eqn:F; [| reflexivity].
    destruct (rev x); discriminate F.
Qed.

Lemma rstrip_blank (s : string) : rstrip s = EmptyString <-> blank s = true.
Proof.
  induction s as [| c s IH].
  - cbn. tauto.
  - rewrite rstrip_cons. cbn [blank].
    destruct (rstrip s) as [| d x].
    + destruct (isspace c); cbn.
      * tauto.
      * split; discriminate.
    + split; [discriminate |]. intros H.
      apply andb_true_iff in H. destruct H as [_ H].
      apply IH in H. discriminate H.
Qed.

Lemma lstrip_blank (s : string) : lstrip s = EmptyString <-> blank s = true.
Proof.
  induction s as [| c s IH]; cbn.
  - tauto.
  - destruct (isspace c); cbn; [exact IH |]. split; discriminate.
Qed.

Lemma blank_lstrip (s : string) : blank (lstrip s) = blank s.
Proof.
  induction s as [| c s IH]; cbn; [reflexivity |].
  destruct (isspace c) eqn:E; cbn; [exact IH |]. now rewrite E.
Qed.

Lemma lstrip_starts (s : string) : starts_with_space (lstrip s) = false.
Proof.
  induction s as [| c s IH]; cbn; [reflexivity |].
  destruct (isspace c) eqn:E; [exact IH | cbn; exact E].
Qed.

Lemma rstrip_starts (s : string) :
  starts_with_space s = false -> starts_with_space (rstrip s) = false.
Proof.
  destruct s as [| c s]; [reflexivity |]. cbn [starts_with_space]. intros H.
  rewrite rstrip_cons. destruct (rstrip s); [| exact H].
  rewrite H. exact H.
Qed.

Lemma rstrip_ends (s : string) : ends_with_space (rstrip s) = false.
Proof.
  induction s as [| c s IH]; [reflexivity |].
  rewrite rstrip_cons. destruct (rstrip s) as [| d x].
  - destruct (isspace c) eqn:E; [reflexivity | cbn; exact E].
  - exact IH.
Qed.

(** [strip] gives the empty string exactly on strings of white space. *)
Lemma strip_blank (s : string) : strip s = EmptyString <-> blank s = true.
Proof. unfold strip. now rewrite rstrip_blank, blank_lstrip. Qed.

Lemma strip_edges (s : string) :
  starts_with_space (strip s) = false /\ ends_with_space (strip s) = false.
Proof.
  unfold strip. split; [| apply rstrip_ends].
  apply rstrip_starts, lstrip_starts.
Qed.

Lemma basename_from_no_slash (cur name : string) :
  no_slash name = true -> basename_from cur name = cur.
Proof.
  revert cur. induction name as [| c r IH]; intros cur H; cbn in *.
  - reflexivity.
  - apply andb_true_iff in H. destruct H as [Hc Hr].
    apply negb_true_iff in Hc. rewrite Hc. now apply IH.
Qed.

(** The base name of [dir/name] is [name] when [name] holds no slash. *)
Lemma basename_join (dir name : string) :
  no_slash name = true -> basename (dir ++ "/" ++ name) = name.
Proof.
  intros H. unfold basename.
  generalize (dir ++ "/" ++ name) at 1. 
  induction dir as [| c d IH]; intros cur; cbn.
  - now apply basename_from_no_slash.
  - destruct (Ascii.eqb c "/"%char); apply IH.
Qed.

End PyFacts.

(** ** More on auto_commit.py *)

Module AutoCommitMore.

Import AutoCommit AutoCommitFacts.

Definition is_status (c : string) : bool := String.eqb c git_status.
Definition is_add (c : string) : bool := String.eqb c git_add.
Definition is_commit (c : string) : bool := String.prefix "git commit -m " c.
Definition is_push (c : string) : bool := String.eqb c git_push.

(** How many of the command lines satisfy [f]. *)
Definition count (f : string -> bool) (l : list string) : nat :=
  List.length (filter f l).

(** Nothing is pushed that was not committed, nothing committed that was
    not staged, nothing staged without a status query before. *)
Definition in_order (l : list string) : Prop :=
  (count is_push l <= count is_commit l)%nat
  /\ (count is_commit l <= count is_add l)%nat
  /\ (count is_add l <= count is_status l)%nat.

(** The four command lines of a full cycle, [w] being the world in which
    the commit message is made. *)
Definition cycle `{Env : Environment} (w : World) : list string :=
  [git_status; git_add; git_commit (message_of None w); git_push].


Definition negative_sleep : exn :=
  ValueError "sleep length must be non-negative".


Section Facts.

Context `{Env : Environment}.

Lemma count_app (f : string -> bool) (a b : list string) :
  count f (a ++ b) = (count f a + count f b)%nat.
Proof. unfold count. now rewrite filter_app, length_app. Qed.

Lemma in_order_app (a b : list string) :
  in_order a -> in_order b -> in_order (a ++ b).
Proof.
  unfold in_order. rewrite !count_app. intros (? & ? & ?) (? & ? & ?).
  repeat split; lia.
Qed.

Lemma cycle_prefix_counts (w : World) (k : nat) :
  (1 <= k)%nat ->
  in_order (firstn k (cycle w))
  /\ count is_status (firstn k (cycle w)) = 1%nat.
Proof.
  intros Hk. unfold in_order, cycle.
  destruct k as [| [| [| [| k]]]]; [lia | | | |];
    cbn; rewrite ?firstn_nil; cbn; repeat split; lia.
Qed.

(** The state in which a status query leaves the script. *)
Definition after_status (st : State) : State :=
  snd (get_git_status st).

Lemma get_git_status_ok (st : State) :
  exists status, get_git_status st = (Ok status, after_status st).
Proof.
  unfold after_status, get_git_status. rewrite run_command_eq. cbv zeta.
  destruct (returncode _ =? 0); eexists; reflexivity.
Qed.

Lemma after_status_fields (st : State) :
  world (after_status st) = snd (exec git_status (world st))
  /\ cmds (after_status st) = (cmds st ++ [git_status])%list.
Proof.
  unfold after_status, get_git_status. rewrite run_command_eq. cbv zeta.
  fold git_status. destruct (returncode _ =? 0); split; reflexivity.
Qed.

(** [commit_changes], then [push_changes] if it answered [True]: the
    command lines run are the first ones of stage, commit, push. *)
Lemma stage_commit_push_shape (st : State) :
  exists committed st1 j,
    commit_changes None st = (Ok committed, st1)
    /\ (1 <= j <= 2)%nat
    /\ cmds st1
       = (cmds st
            ++ firstn j [git_add; git_commit (message_of None (world st))])%list
    /\ (committed = true -> j = 2%nat)
    /\ exists pushed st2,
         push_changes st1 = (Ok pushed, st2)
         /\ cmds st2 = (cmds st1 ++ [git_push])%list.
Proof.
  rewrite commit_changes_eq. cbv zeta.
  destruct (returncode (fst (exec git_add (world st))) =? 0);
    [destruct (returncode _ =? 0) |].
  1: eexists _, _, 2%nat. 2: eexists _, _, 2%nat. 3: eexists _, _, 1%nat.
  all: split; [reflexivity |]; split; [lia |]; split; [reflexivity |];
    (split; [intros; first [reflexivity | discriminate] |]);
    rewrite push_changes_eq; cbv zeta;
    destruct (returncode _ =? 0); eexists _, _; split; reflexivity.
Qed.


(** *** Properties *)


(** X2. What [run_command] returns for a command that succeeded is the
    standard output of the command without white space at either end. *)
Theorem run_command_output_is_stripped (command out : string)
  (st st' : State) :
  run_command command st = (Ok (Some out), st') ->
  returncode (fst (exec command (world st))) = 0
  /\ out = Py.strip (stdout (fst (exec command (world st))))
  /\ PyFacts.starts_with_space out = false
  /\ PyFacts.ends_with_space out = false.
Proof.
  rewrite run_command_eq. cbv zeta.
  destruct (Z.eqb_spec (returncode (fst (exec command (world st)))) 0)
    as [E | E]; intros H; inversion H; subst.
  split; [exact E |]. split; [reflexivity |]. apply PyFacts.strip_edges.
Qed.



Lemma round_shape (interval : Z) (st : State) :
  exists r st' k,
    auto_commit_round interval st = (r, st')
    /\ (1 <= k <= 4)%nat
    /\ cmds st'
       = (cmds st
            ++ firstn k (cycle (snd (exec git_status (world st)))))%list
    /\ r = (if interval <? 0 then Raise negative_sleep else Ok tt).
Proof.
  destruct (get_git_status_ok st) as (status & Es).
  destruct (after_status_fields st) as (Ws & Cs).
  assert (Sleep : forall s : State, exists s',
             time_sleep interval s
             = (if interval <? 0 then Raise negative_sleep else Ok tt, s')
             /\ cmds s' = cmds s).
  { intros s. unfold time_sleep, negative_sleep.
    destruct (interval <? 0); eexists; split; reflexivity. }
  unfold auto_commit_round, bind at 1. rewrite Es.
  destruct (truthy status).
  - set (sl := snd (logger_info "Changes detected" (after_status st))).
    destruct (stage_commit_push_shape sl)
      as (committed & st1 & j & Ec & Hj & Cc & Hc & pushed & st2 & Ep & Cp).
    unfold bind at 1. unfold bind at 1.
    change (logger_info "Changes detected" (after_status st))
      with (@Ok unit tt, sl).
    cbv iota beta. unfold bind at 1. rewrite Ec.
    change (world sl) with (world (after_status st)) in Cc.
    change (cmds sl) with (cmds (after_status st)) in Cc.
    rewrite Ws, Cs in Cc.
    destruct committed.
    + unfold bind at 1. rewrite Ep. cbn [ret].
      destruct (Sleep st2) as (s' & E' & C'). rewrite E'.
      exists (if interval <? 0 then Raise negative_sleep else Ok tt), s', 4%nat.
      split; [reflexivity |]. split; [lia |]. split; [| reflexivity].
      rewrite C', Cp, Cc, (Hc eq_refl). unfold cycle. cbn [firstn].
      now rewrite <- !app_assoc.
    + cbn [ret]. destruct (Sleep st1) as (s' & E' & C'). rewrite E'.
      exists (if interval <? 0 then Raise negative_sleep else Ok tt), s', (S j).
      split; [reflexivity |]. split; [lia |]. split; [| reflexivity].
      rewrite C', Cc. unfold cycle.
      destruct Hj as [Hj1 Hj2].
      destruct j as [| [| [| j]]]; try lia; cbn [firstn];
        now rewrite <- !app_assoc.
  - unfold bind. cbn [logger_info].
    match goal with |- context [time_sleep interval ?s] =>
      destruct (Sleep s) as (s' & E' & C') end.
    rewrite E'.
    exists (if interval <? 0 then Raise negative_sleep else Ok tt), s', 1%nat.
    split; [reflexivity |]. split; [lia |]. split; [| reflexivity].
    rewrite C'. cbn [cmds]. now rewrite Cs.
Qed.

Lemma rounds_shape (interval : Z) (n : nat) :
  forall st : State,
  exists r st' new,
    rounds n interval st = (r, st')
    /\ cmds st' = (cmds st ++ new)%list
    /\ in_order new
    /\ ((interval <? 0) = false -> r = Ok tt /\ count is_status new = n)
    /\ ((interval <? 0) = true ->
        count is_status new = Nat.min n 1
        /\ ((1 <= n)%nat -> (r = Raise negative_sleep))).
Proof.
  induction n as [| n IH]; intros st.
  - exists (Ok tt), st, []. cbn [rounds ret]. rewrite app_nil_r.
    repeat split; cbn; try lia.
  - destruct (round_shape interval st) as (r1 & st1 & k & E1 & Hk & C1 & R1).
    destruct (cycle_prefix_counts (snd (exec git_status (world st))) k)
      as [O1 S1]; [lia |].
    cbn [rounds]. unfold bind. rewrite E1, R1.
    destruct (interval <? 0) eqn:Neg.
    + eexists _, st1, _. split; [reflexivity |]. split; [exact C1 |].
      split; [exact O1 |]. split; [discriminate |].
      intros _. split; [rewrite S1; lia | reflexivity].
    + destruct (IH st1) as (r & st' & new & E & C & O & Pos & _).
      destruct (Pos eq_refl) as [-> Sn].
      eexists _, st', _. split; [exact E |].
      split; [rewrite C, C1, <- app_assoc; reflexivity |].
      split; [now apply in_order_app |].
      split; [| discriminate].
      intros _. split; [reflexivity |]. rewrite count_app, S1, Sn. lia.
Qed.



(** X6. Whatever the interval and the number of rounds, among the command
    lines of the loop there are never more pushes than commits, more
    commits than stagings, or more stagings than status queries, and never
    more status queries than rounds. *)
Theorem loop_keeps_commands_in_order (path_to_watch : string)
  (interval : Z) (n : nat) (st : State) :
  exists r st' new,
    auto_commit_changes path_to_watch interval n st = (r, st')
    /\ cmds st' = (cmds st ++ new)%list
    /\ in_order new
    /\ (count is_status new <= n)%nat.
Proof.
  unfold auto_commit_changes, bind. cbn [logger_info].
  match goal with |- context [rounds n interval ?s] =>
    destruct (rounds_shape interval n s)
      as (r & st' & new & E & C & O & Pos & Neg)
  end.
  exists r, st', new. rewrite E.
  split; [reflexivity |]. split; [exact C |]. split; [exact O |].
  destruct (interval <? 0).
  - destruct (Neg eq_refl) as [Sn _]. lia.
  - destruct (Pos eq_refl) as [_ Sn]. lia.
Qed.


End Facts.

(** *** Concrete runs *)

Import Doubles.

Lemma run_command_output_is_stripped_witness :
  "M docs/index.md" = Py.strip " M docs/index.md".
Proof.
  apply (run_command_output_is_stripped git_status "M docs/index.md"
           (fresh dirty_repo)
           (snd (run_command git_status (fresh dirty_repo)))).
  reflexivity.
Defined.



Example negative_interval_still_pushes :
  cmds (snd (auto_commit_changes "docs" (-1) 5 (fresh dirty_repo)))
  = [git_status; git_add;
     git_commit "Auto-commit: Update documentation at 1700000000";
     git_push].
Proof. reflexivity. Qed.

End AutoCommitMore.

(** ** More on watch_changes.py *)

Module WatchChangesMore.

Import WatchChanges WatchChangesFacts.

(** Consecutive times are at least [d] apart. *)
Fixpoint paced (d : Z) (l : list Z) : Prop :=
  match l with
  | a :: ((b :: _) as r) => a + d <= b /\ paced d r
  | _ => True
  end.

(** The commit runs so far are paced and none lies in the future. *)
Definition paced_so_far (d : Z) (w : World) : Prop :=
  paced d (firings (trace w))
  /\ Forall (fun t => t <= clock w) (firings (trace w)).

(** The events of a queue that the handler lets through. *)
Definition qualifying (queue : list (Z * FileSystemEvent))
  : list (Z * FileSystemEvent) :=
  filter (fun p => qualifies (snd p)) queue.

Section Facts.

Context `{RT : Runtime}.

Lemma paced_snoc (d t : Z) (l : list Z) :
  paced d l -> Forall (fun a => a + d <= t) l -> paced d (l ++ [t]).
Proof.
  induction l as [| a l IH]; intros P F; [exact I |].
  inversion F as [| ? ? Ha Fl]; subst.
  destruct l as [| b l]; cbn in *.
  - split; [exact Ha | exact I].
  - destruct P as [Pab P]. split; [exact Pab |]. now apply IH.
Qed.

Lemma ticks_clock_mono (k : nat) (w : World) : clock w <= clock (ticks k w).
Proof.
  revert w. induction k as [| k IH]; intros w; cbn [ticks]; [lia |].
  pose proof (IH (time_sleep 1 w)). pose proof (clock_time_sleep w).
  unfold us_per_s in *. lia.
Qed.

Lemma fired_clock (self : ChangeHandler) (w : World) :
  clock w <= clock (fired self w).
Proof.
  unfold fired, after_commit, logger_info, emit. cbn [clock children].
  pose proof (N2Z.is_nonneg (snd (hd (0, 0%N) (children w)))). lia.
Qed.

(** One call of the handler on an idle handler, for any event. *)
Lemma on_any_event_from_idle (self : ChangeHandler) (event : FileSystemEvent)
  (w : World) :
  timer_running self = false ->
  exists k self' w' ts,
    (forall fuel, (k < fuel)%nat ->
       on_any_event fuel self event w = Some (Ok tt, self', w'))
    /\ timer_running self' = false
    /\ debounce_time self' = debounce_time self
    /\ clock w <= clock w'
    /\ firings (trace w') = (firings (trace w) ++ ts)%list
    /\ List.length ts = (if qualifies event then 1 else 0)%nat
    /\ Forall (fun t => clock w + debounce_time self * us_per_s <= t
                        /\ t <= clock w') ts.
Proof.
  intros Hidle. destruct (qualifies event) eqn:Hq.
  - destruct (on_any_event_idle self event w Hq Hidle) as (k & [_ Hset] & E).
    set (self1 := set_timer_running true (set_last_modified (clock w) self)) in *.
    set (w1 := logger_info (detected_msg event) w) in *.
    exists k, (set_timer_running false self1), (fired self1 (ticks k w1)),
      [clock (ticks k w1)].
    split; [exact E |]. split; [reflexivity |]. split; [reflexivity |].
    pose proof (ticks_clock_mono k w1) as M.
    pose proof (fired_clock self1 (ticks k w1)) as F.
    change (clock w1) with (clock w) in M.
    split; [lia |].
    destruct (fired_trace self1 (ticks k w1)) as (T & _ & _).
    destruct (ticks_trace k w1) as [T2 _].
    split.
    { rewrite T, T2. unfold w1, logger_info, emit. cbn [trace].
      rewrite firings_app. cbn. now rewrite app_nil_r. }
    split; [reflexivity |].
    constructor; [| constructor].
    unfold settled in Hset. apply Z.leb_le in Hset.
    change (last_modified self1) with (clock w) in Hset.
    change (debounce_time self1) with (debounce_time self) in Hset.
    lia.
  - exists O, self, w, []. unfold qualifies in Hq. apply negb_false_iff in Hq.
    split; [intros fuel _; unfold on_any_event; now rewrite Hq |].
    split; [exact Hidle |]. split; [reflexivity |]. split; [lia |].
    split; [now rewrite app_nil_r |]. split; [reflexivity | constructor].
Qed.

Lemma paced_so_far_later (d : Z) (w w' : World) :
  paced_so_far d w -> firings (trace w') = firings (trace w) ->
  clock w <= clock w' -> paced_so_far d w'.
Proof.
  intros [P F] E C. unfold paced_so_far. rewrite E. split; [exact P |].
  eapply Forall_impl; [| exact F]. cbn. intros; lia.
Qed.

(** The observer thread on any queue, from an idle handler. *)
Lemma dispatch_from_idle (d : Z) (queue : list (Z * FileSystemEvent)) :
  forall (self : ChangeHandler) (w : World),
    timer_running self = false ->
    debounce_time self = d ->
    paced_so_far (d * us_per_s) w ->
    exists n self' w',
      (forall fuel, (n < fuel)%nat ->
         dispatch fuel queue self w = Some (Ok tt, self', w'))
      /\ timer_running self' = false
      /\ paced_so_far (d * us_per_s) w'
      /\ List.length (firings (trace w'))
         = (List.length (firings (trace w))
            + List.length (qualifying queue))%nat.
Proof.
  induction queue as [| [arrival event] rest IH]; intros self w Hidle Hd Inv.
  - exists O, self, w. cbn. repeat split; try assumption; try apply Inv. lia.
  - assert (Inv0 : paced_so_far (d * us_per_s) (await arrival w)).
    { apply (paced_so_far_later _ w); [exact Inv | reflexivity |].
      cbn [await clock]. lia. }
    destruct (on_any_event_from_idle self event (await arrival w) Hidle)
      as (k & self1 & w1 & ts & E & Hidle1 & Hd1 & C1 & T1 & L1 & F1).
    assert (Inv1 : paced_so_far (d * us_per_s) w1).
    { destruct Inv0 as [P0 F0]. unfold paced_so_far. rewrite T1.
      destruct ts as [| t [| t' ts]]; cbn in L1.
      - rewrite app_nil_r. split; [exact P0 |].
        eapply Forall_impl; [| exact F0]. intros a Ha. cbv beta in Ha |- *. lia.
      - inversion F1 as [| ? ? [Ht1 Ht2] _]; subst. split.
        + apply paced_snoc; [exact P0 |].
          eapply Forall_impl; [| exact F0]. intros a Ha. cbv beta in Ha |- *. lia.
        + apply Forall_app. split.
          * eapply Forall_impl; [| exact F0]. intros a Ha. cbv beta in Ha |- *. lia.
          * constructor; [exact Ht2 | constructor].
      - destruct (qualifies event); discriminate L1. }
    destruct (IH self1 w1 Hidle1 (eq_trans Hd1 Hd) Inv1)
      as (n & self' & w' & En & Hidle' & Inv' & Len).
    exists (Nat.max k n), self', w'.
    split; [intros fuel Hf; cbn [dispatch]; rewrite E by lia; apply En; lia |].
    split; [exact Hidle' |]. split; [exact Inv' |].
    rewrite Len, T1, length_app, L1. unfold qualifying. cbn [filter snd].
    change (firings (trace (await arrival w))) with (firings (trace w)).
    destruct (qualifies event); cbn [List.length]; lia.
Qed.

(** *** Properties *)


(** X9. For an event on a file the handler looks at nothing but the part
    of the path after the last slash: [dir/name] qualifies exactly when
    [name] does not start with a dot, whatever [dir] is, so a file inside
    a hidden directory qualifies. *)
Theorem filter_reads_base_name_only (kind dir name : string) :
  PyFacts.no_slash name = true ->
  qualifies {| event_type := kind; src_path := dir ++ "/" ++ name;
               is_directory := false |}
  = negb (Py.startswith_dot name).
Proof.
  intros H. unfold qualifies. cbn [is_directory src_path orb].
  now rewrite PyFacts.basename_join.
Qed.

(** X10. From a start with nothing done yet, the runs of the commit script
    that [watch_directory] starts for a queue of events are at least the
    debounce time apart, one after the other, whatever the events and their
    arrival times. *)
Theorem commit_runs_are_paced (path_to_watch : string) (debounce : Z)
  (queue : list (Z * FileSystemEvent)) (w : World) :
  trace w = [] ->
  exists n self' w',
    (forall fuel, (n < fuel)%nat ->
       watch_directory path_to_watch debounce fuel queue w
       = Some (Ok tt, self', w'))
    /\ paced (debounce * us_per_s) (firings (trace w')).
Proof.
  intros Hw. unfold watch_directory.
  set (w1 := logger_info ("Starting file watcher for " ++ absolute path_to_watch) w).
  assert (Inv : paced_so_far (debounce * us_per_s) w1).
  { unfold paced_so_far, w1, logger_info, emit. cbn [trace]. rewrite Hw.
    cbn. split; [exact I | constructor]. }
  destruct (dispatch_from_idle debounce queue (init debounce w1) w1
              eq_refl eq_refl Inv)
    as (n & self' & w' & E & _ & [P _] & _).
  exists n, self', w'. split; [exact E | exact P].
Qed.

(** X11. [watch_directory] never raises and leaves the handler idle after
    every queue of events, and it has then run the commit script once for
    each event of the queue that qualifies: events on directories and on
    hidden files cost no run. *)
Theorem one_commit_run_per_qualifying_event (path_to_watch : string)
  (debounce : Z) (queue : list (Z * FileSystemEvent)) (w : World) :
  trace w = [] ->
  exists n self' w',
    (forall fuel, (n < fuel)%nat ->
       watch_directory path_to_watch debounce fuel queue w
       = Some (Ok tt, self', w'))
    /\ timer_running self' = false
    /\ List.length (firings (trace w')) = List.length (qualifying queue).
Proof.
  intros Hw. unfold watch_directory.
  set (w1 := logger_info ("Starting file watcher for " ++ absolute path_to_watch) w).
  assert (Inv : paced_so_far (debounce * us_per_s) w1).
  { unfold paced_so_far, w1, logger_info, emit. cbn [trace]. rewrite Hw.
    cbn. split; [exact I | constructor]. }
  destruct (dispatch_from_idle debounce queue (init debounce w1) w1
              eq_refl eq_refl Inv)
    as (n & self' & w' & E & Hidle & _ & Len).
  exists n, self', w'. split; [exact E |]. split; [exact Hidle |].
  rewrite Len. unfold w1, logger_info, emit. cbn [trace]. now rewrite Hw.
Qed.

End Facts.

(** *** Concrete runs *)

Import Doubles.


Lemma filter_reads_base_name_only_witness :
  qualifies (file_event "modified" ".git/index") = true
  /\ qualifies (file_event "created" "docs/guides/.draft.md") = false.
Proof.
  split.
  - apply (filter_reads_base_name_only "modified" ".git" "index"). reflexivity.
  - apply (filter_reads_base_name_only "created" "docs/guides" ".draft.md").
    reflexivity.
Defined.

Lemma commit_runs_are_paced_witness :
  exists n self' w',
    (forall fuel, (n < fuel)%nat ->
       watch_directory "docs" 5 fuel
         [(0, index_modified); (1 * us_per_s, swap_file_created);
          (2 * us_per_s, index_modified)]
         (world_at 0 [])
       = Some (Ok tt, self', w'))
    /\ paced (5 * us_per_s) (firings (trace w')).
Proof.
  apply (commit_runs_are_paced "docs" 5
           [(0, index_modified); (1 * us_per_s, swap_file_created);
            (2 * us_per_s, index_modified)]
           (world_at 0 [])).
  reflexivity.
Defined.

Lemma one_commit_run_per_qualifying_event_witness :
  exists n self' w',
    (forall fuel, (n < fuel)%nat ->
       watch_directory "docs" 5 fuel
         [(0, index_modified); (1 * us_per_s, swap_file_created);
          (2 * us_per_s, folder_created); (3 * us_per_s, index_modified)]
         (world_at 0 [])
       = Some (Ok tt, self', w'))
    /\ List.length (firings (trace w')) = 2%nat.
Proof.
  destruct (one_commit_run_per_qualifying_event "docs" 5
              [(0, index_modified); (1 * us_per_s, swap_file_created);
               (2 * us_per_s, folder_created); (3 * us_per_s, index_modified)]
              (world_at 0 []) eq_refl)
    as (n & self' & w' & E & _ & L).
  exists n, self', w'. split; [exact E | exact L].
Defined.

End WatchChangesMore.

(** ** scripts/kb_admin.py: the methods that run the other scripts *)

Module KbAdmin.

Import WatchChanges.

(** The instance attributes of [KnowledgeBaseAdmin], as [__init__] leaves
    them: absolute paths, [docs_dir] and [scripts_dir] below [base_dir]. *)
Record KnowledgeBaseAdmin : Type := {
  base_dir : string;
  docs_dir : string;
  scripts_dir : string
}.

Section Admin.

Context `{RT : Runtime}.

(** [self.scripts_dir / f"{script_name}.py"]. *)
Definition script_path (self : KnowledgeBaseAdmin) (script_name : string)
  : string :=
  scripts_dir self ++ "/" ++ script_name ++ ".py".

(** [_run_script]; [present] tells which paths exist when it is called, and
    [args] is [None] when the argument is left out. *)
Definition _run_script (present : string -> bool) (self : KnowledgeBaseAdmin)
  (script_name : string) (args : option (list string)) (w : World)
  : bool * World :=
  let path := script_path self script_name in
  if negb (present path) then
    (false, logger_error ("Script " ++ path ++ " not found") w)
  else
    let cmd := [sys_executable; path] in
    let cmd := match args with
               | Some (a :: r) => (cmd ++ a :: r)%list
               | _ => cmd
               end in
    match subprocess_run cmd w with
    | (Ok _, w') => (true, w')
    | (Raise e, w') =>
        (false, logger_error ("Error running script " ++ script_name ++ ": "
                                ++ str_of_exn e) w')
    end.

Definition start_watcher (present : string -> bool) (self : KnowledgeBaseAdmin)
  (interval : Z) (w : World) : bool * World :=
  _run_script present self "watch_changes"
    (Some ["--debounce"; Py.str_of_Z interval]) w.

Definition setup_git_hooks (present : string -> bool)
  (self : KnowledgeBaseAdmin) (w : World) : bool * World :=
  _run_script present self "setup_hooks" None w.

Definition generate_categories (present : string -> bool)
  (self : KnowledgeBaseAdmin) (w : World) : bool * World :=
  if present (scripts_dir self ++ "/" ++ "generate_categories.py") then
    _run_script present self "generate_categories" None w
  else (false, logger_error "generate_categories.py script not found" w).

(** Truth value of an optional string in [if description:]. *)
Definition given (o : option string) : bool :=
  match o with
  | Some s => negb (String.eqb s "")
  | None => false
  end.

Definition option_args (flag : string) (o : option string) : list string :=
  match o with
  | Some s => if given o then [flag; s] else []
  | None => []
  end.

Definition create_document (present : string -> bool)
  (self : KnowledgeBaseAdmin) (title : string)
  (description author tags category : option string) (w : World)
  : bool * World :=
  let args := [title] in
  let args := (args ++ option_args "--desc" description)%list in
  let args := (args ++ option_args "--author" author)%list in
  let args := (args ++ option_args "--tags" tags)%list in
  let args := (args ++ option_args "--category" category)%list in
  _run_script present self "create_document" (Some args) w.

End Admin.

End KbAdmin.

Module KbAdminFacts.

Import WatchChanges WatchChangesFacts KbAdmin.


(** The command lines of the child processes started in a trace. *)
Fixpoint spawned (t : list effect) : list (list string) :=
  match t with
  | [] => []
  | Spawned argv _ :: r => argv :: spawned r
  | _ :: r => spawned r
  end.

Section Facts.

Context `{RT : Runtime}.

Lemma spawned_app (a b : list effect) :
  spawned (a ++ b) = (spawned a ++ spawned b)%list.
Proof.
  induction a as [| e a IH]; [reflexivity |].
  destruct e; cbn; now rewrite IH.
Qed.

(** X12. [_run_script] starts no process for a script that is not there:
    it logs one error and answers [False].  For a script that is there it
    starts exactly one process, the interpreter on the script followed by
    the arguments given, and answers [True] exactly when that process exits
    with zero; no exception leaves it. *)
Theorem run_script_starts_at_most_one_process (present : string -> bool)
  (self : KnowledgeBaseAdmin) (script_name : string)
  (args : option (list string)) (w : World) :
  let path := script_path self script_name in
  let extra := match args with Some l => l | None => [] end in
  (present path = false ->
   _run_script present self script_name args w
   = (false, logger_error ("Script " ++ path ++ " not found") w))
  /\ (present path = true ->
      exists w',
        _run_script present self script_name args w
        = (next_status w =? 0, w')
        /\ spawned (trace w')
           = (spawned (trace w) ++ [[sys_executable; path] ++ extra])%list).
Proof.
  cbv zeta. split; intros Hp; unfold _run_script; rewrite Hp; cbn [negb].
  - reflexivity.
  - assert (Hcmd : match args with
                   | Some (a :: r) =>
                       ([sys_executable; script_path self script_name] ++ a :: r)%list
                   | _ => [sys_executable; script_path self script_name]
                   end
                   = ([sys_executable; script_path self script_name]
                        ++ match args with Some l => l | None => [] end)%list).
    { destruct args as [[| a r] |]; reflexivity. }
    rewrite Hcmd. unfold subprocess_run, next_status.
    destruct (hd (0, 0%N) (children w)) as [rc took]; cbn [fst].
    destruct (rc =? 0); eexists; (split; [reflexivity |]);
      unfold logger_error, emit; cbn [trace];
      rewrite ?spawned_app; cbn [spawned]; rewrite ?app_nil_r; reflexivity.
Qed.

End Facts.

End KbAdminFacts.

(** ** hooks/post_gen_project.py *)

Module PostGen.

(** The script is a template: before Python reads it, each
    [{{ cookiecutter.x }}] is replaced by the answer, as it is, inside a
    string literal of the script.  The answers: *)
Record Cookiecutter : Type := {
  use_analytics : string;
  use_authentication : string;
  use_comments : string;
  auto_commit_enabled : string;
  file_watcher_enabled : string;
  open_source_license : string;
  project_name : string;
  project_slug : string
}.

(** How [subprocess.run(argv, check=True)] ends: the child exits, or the
    program is not found. *)
Inductive outcome : Type :=
| Exited (rc : Z)
| NotFound.

Inductive exn : Type :=
| CalledProcessError (cmd : list string) (rc : Z)
| FileNotFoundError.

(** The files the template has put into the project directory (paths from
    that directory; what git keeps under [.git] is not counted), how the
    coming child processes end, the lines printed and the command lines
    started so far. *)
Record World : Type := {
  files : list string;
  answers : list outcome;
  printed : list string;
  started : list (list string)
}.

(** A character that a one-line string literal between two [quote]s holds
    as it is: not the quote, not a backslash, not the end of a line, not
    the zero character. *)
Definition literal_char (quote : ascii) (c : ascii) : bool :=
  negb (Ascii.eqb c quote
        || Nat.eqb (nat_of_ascii c) 92
        || Nat.eqb (nat_of_ascii c) 10
        || Nat.eqb (nat_of_ascii c) 13
        || Nat.eqb (nat_of_ascii c) 0).

Fixpoint every (p : ascii -> bool) (s : string) : bool :=
  match s with
  | EmptyString => true
  | String c r => p c && every p r
  end.

(** The answer is the value of ['answer']. *)
Definition single_quoted (answer : string) : bool :=
  every (literal_char "'") answer.

(** The answer is spelled out by ["... answer"]. *)
Definition double_quoted (answer : string) : bool :=
  every (literal_char (ascii_of_nat 34)) answer.

(** The answer is spelled out by [f"... answer ..."]: braces would be read
    as replacement fields. *)
Definition formatted (answer : string) : bool :=
  double_quoted answer
  && every (fun c => negb (Ascii.eqb c "{" || Ascii.eqb c "}")) answer.

(** The rendered template is the script below, each literal holding its
    answer as it is: the five switches and the license stand between single
    quotes, the name of the project in an f-string, its slug between double
    quotes. *)
Definition renders_plainly (cc : Cookiecutter) : bool :=
  single_quoted (use_analytics cc)
  && single_quoted (use_authentication cc)
  && single_quoted (use_comments cc)
  && single_quoted (auto_commit_enabled cc)
  && single_quoted (file_watcher_enabled cc)
  && single_quoted (open_source_license cc)
  && formatted (project_name cc)
  && double_quoted (project_slug cc).

Section Script.

(** How the library prints [CalledProcessError] in an f-string. *)
Variable str_of_error : list string -> Z -> string.

Definition print (line : string) (w : World) : World :=
  {| files := files w; answers := answers w;
     printed := printed w ++ [line]; started := started w |}.

(** [os.path.exists]. *)
Definition exists_ (path : string) (w : World) : bool :=
  existsb (String.eqb path) (files w).

(** [os.remove] of a file that is there. *)
Definition os_remove (path : string) (w : World) : World :=
  {| files := remove string_dec path (files w); answers := answers w;
     printed := printed w; started := started w |}.

(** [if os.path.exists(f): os.remove(f); print(line)]. *)
Definition remove_if_exists (path line : string) (w : World) : World :=
  if exists_ path w then print line (os_remove path w) else w.

Definition remove_file (path : string) (w : World) : World :=
  remove_if_exists path ("Removed " ++ path) w.

(** ['...' == 'yes'], on the value of the literal. *)
Definition yes (value : string) : bool := String.eqb value "yes".

(** The script down to the choice of the license, on the values of its
    literals. *)
Definition remove_unused (cc : Cookiecutter) (w : World) : World :=
  let w := print "Configuring your knowledge base project..." w in
  let w := if negb (yes (use_analytics cc))
           then remove_file "scripts/analytics_integration.py" w else w in
  let w := if negb (yes (use_authentication cc))
           then remove_file "scripts/auth_integration.py" w else w in
  let w := if negb (yes (use_comments cc))
           then remove_file "scripts/comments_integration.py" w else w in
  let w := if negb (yes (auto_commit_enabled cc))
           then remove_file "auto_commit.log"
                  (remove_file "scripts/auto_commit.py" w)
           else w in
  let w := if negb (yes (file_watcher_enabled cc))
           then remove_file "file_watcher.log"
                  (remove_file "scripts/watch_changes.py" w)
           else w in
  if String.eqb (open_source_license cc) "Not open source"
  then remove_if_exists "LICENSE"
         "Removed LICENSE file as project is not open source" w
  else w.

(** [subprocess.run(argv, check=True)]. *)
Definition subprocess_run (argv : list string) (w : World)
  : option exn * World :=
  let w' := {| files := files w; answers := tl (answers w);
               printed := printed w; started := started w ++ [argv] |} in
  match hd (Exited 0) (answers w) with
  | Exited rc =>
      if rc =? 0 then (None, w') else (Some (CalledProcessError argv rc), w')
  | NotFound => (Some FileNotFoundError, w')
  end.

Definition git_init : list string := ["git"; "init"].
Definition git_add_all : list string := ["git"; "add"; "."].
Definition git_first_commit : list string :=
  ["git"; "commit"; "-m"; "Initial commit from cookiecutter template"].

(** The two [except] clauses. *)
Definition report (e : exn) (w : World) : World :=
  match e with
  | CalledProcessError cmd rc =>
      print ("Warning: Git initialization failed: " ++ str_of_error cmd rc) w
  | FileNotFoundError =>
      print "Warning: Git not found. Please initialize the repository manually." w
  end.

(** The [try] block that initializes the repository. *)
Definition init_repository (w : World) : World :=
  let w := print "Initializing git repository..." w in
  match subprocess_run git_init w with
  | (Some e, w) => report e w
  | (None, w) =>
      match subprocess_run git_add_all w with
      | (Some e, w) => report e w
      | (None, w) =>
          match subprocess_run git_first_commit w with
          | (Some e, w) => report e w
          | (None, w) =>
              print "Git repository initialized with initial commit" w
          end
      end
  end.

Definition newline : string := String (ascii_of_nat 10) EmptyString.

(** The last five lines printed, on the values of their literals. *)
Definition farewell (cc : Cookiecutter) : list string :=
  [newline ++ "Project '" ++ project_name cc ++ "' created successfully!";
   "To get started, run:";
   "  cd " ++ project_slug cc;
   "  pip install -r requirements.txt";
   "  mkdocs serve"].

Definition say (lines : list string) (w : World) : World :=
  fold_left (fun w line => print line w) lines w.

(** The script whose literals hold the answers [cc]. *)
Definition script (cc : Cookiecutter) (w : World) : World :=
  say (farewell cc) (init_repository (remove_unused cc w)).

(** The hook for the answers [cc]: the script above when the template
    renders plainly.  With other answers the rendered text is another
    program, or none (a quote in an answer ends its literal), and [None]
    stands for it. *)
Definition post_gen_project (cc : Cookiecutter) (w : World) : option World :=
  if renders_plainly cc then Some (script cc w) else None.

End Script.

End PostGen.

Module PostGenFacts.

Import PostGen.

(** The paths the script removes for the given answers, in its order. *)
Definition doomed (cc : Cookiecutter) : list string :=
  ((if negb (yes (use_analytics cc))
    then ["scripts/analytics_integration.py"] else [])
   ++ (if negb (yes (use_authentication cc))
       then ["scripts/auth_integration.py"] else [])
   ++ (if negb (yes (use_comments cc))
       then ["scripts/comments_integration.py"] else [])
   ++ (if negb (yes (auto_commit_enabled cc))
       then ["scripts/auto_commit.py"; "auto_commit.log"] else [])
   ++ (if negb (yes (file_watcher_enabled cc))
       then ["scripts/watch_changes.py"; "file_watcher.log"] else [])
   ++ (if String.eqb (open_source_license cc) "Not open source"
       then ["LICENSE"] else []))%list.

(** How the [i]-th coming child process ends. *)
Definition answer (i : nat) (w : World) : outcome :=
  nth i (answers w) (Exited 0).

Definition git_commands : list (list string) :=
  [git_init; git_add_all; git_first_commit].

Section Facts.

Variable str_of_error : list string -> Z -> string.

Lemma exists_In (path : string) (w : World) :
  exists_ path w = true <-> In path (files w).
Proof.
  unfold exists_. rewrite existsb_exists. split.
  - intros (x & Hx & E). apply String.eqb_eq in E. now subst.
  - intros H. exists path. split; [exact H | apply String.eqb_refl].
Qed.

Lemma remove_if_exists_files (path line f : string) (w : World) :
  In f (files (remove_if_exists path line w)) <-> In f (files w) /\ f <> path.
Proof.
  unfold remove_if_exists. destruct (exists_ path w) eqn:E.
  - cbn [print os_remove files]. split.
    + intros H. apply in_remove in H. exact H.
    + intros [H N]. now apply in_in_remove.
  - split; [| tauto]. intros H. split; [exact H |].
    intros ->. apply exists_In in H. congruence.
Qed.

Lemma remove_if_exists_rest (path line : string) (w : World) :
  answers (remove_if_exists path line w) = answers w
  /\ started (remove_if_exists path line w) = started w.
Proof.
  unfold remove_if_exists. destruct (exists_ path w); split; reflexivity.
Qed.

Lemma remove_unused_files (cc : Cookiecutter) (w : World) (f : string) :
  In f (files (remove_unused cc w)) <-> In f (files w) /\ ~ In f (doomed cc).
Proof.
  unfold remove_unused, doomed, remove_file.
  destruct (negb (yes (use_analytics cc)));
    destruct (negb (yes (use_authentication cc)));
    destruct (negb (yes (use_comments cc)));
    destruct (negb (yes (auto_commit_enabled cc)));
    destruct (negb (yes (file_watcher_enabled cc)));
    destruct (String.eqb (open_source_license cc) "Not open source");
    rewrite ?remove_if_exists_files; cbn [print files app In];
    intuition congruence.
Qed.

Lemma remove_unused_rest (cc : Cookiecutter) (w : World) :
  answers (remove_unused cc w) = answers w
  /\ started (remove_unused cc w) = started w.
Proof.
  unfold remove_unused, remove_file.
  repeat match goal with
         | |- context [if ?b then _ else _] => destruct b
         end;
    repeat match goal with
           | |- context [remove_if_exists ?p ?l ?x] =>
               let A := fresh in let B := fresh in
               destruct (remove_if_exists_rest p l x) as [A B];
               rewrite A, B; clear A B
           end;
    split; reflexivity.
Qed.

Lemma say_fields (lines : list string) (w : World) :
  printed (say lines w) = (printed w ++ lines)%list
  /\ files (say lines w) = files w
  /\ started (say lines w) = started w.
Proof.
  unfold say. revert w. induction lines as [| l lines IH]; intros w; cbn.
  - now rewrite app_nil_r.
  - destruct (IH (print l w)) as (P & F & S). rewrite P, F, S.
    cbn [print printed files started]. now rewrite <- app_assoc.
Qed.

Lemma report_fields (e : exn) (w : World) :
  files (report str_of_error e w) = files w
  /\ started (report str_of_error e w) = started w.
Proof. destruct e; split; reflexivity. Qed.

(** The three commands that initialize the repository run in order, each
    only if the one before exited with zero. *)
Lemma init_repository_shape (w : World) :
  exists k,
    (1 <= k <= 3)%nat
    /\ started (init_repository str_of_error w)
       = (started w ++ firstn k git_commands)%list
    /\ files (init_repository str_of_error w) = files w
    /\ (forall i, (S i < k)%nat -> answer i w = Exited 0)
    /\ ((k < 3)%nat -> answer (k - 1) w <> Exited 0).
Proof.
  unfold init_repository, subprocess_run, answer, git_commands.
  cbn [print answers started files printed].
  destruct (answers w) as [| [rc0 |] [| [rc1 |] [| [rc2 |] l2]]];
    cbn [hd tl nth];
    repeat (cbn;
            match goal with
            | |- context [Z.eqb ?rc 0] =>
                destruct (Z.eqb_spec rc 0); [subst rc |]
            end);
    cbn.
  all: first
    [ exists 3%nat; split; [lia |]; split; [cbn; rewrite <- ?app_assoc; reflexivity |];
      split; [reflexivity |];
      split; [intros [| [| i]] Hi; (reflexivity || lia) | intros Hk; lia]
    | exists 2%nat; split; [lia |]; split; [cbn; rewrite <- ?app_assoc; reflexivity |];
      split; [reflexivity |];
      split; [intros [| i] Hi; (reflexivity || lia)
             | intros _ H; cbn in H; inversion H; congruence]
    | exists 1%nat; split; [lia |]; split; [cbn; rewrite <- ?app_assoc; reflexivity |];
      split; [reflexivity |];
      split; [intros i Hi; lia
             | intros _ H; cbn in H; inversion H; congruence] ].
Qed.

(** *** Properties *)

(** X13. For answers that render plainly, the hook leaves a file of the
    project in place exactly when it was there before and is not one of the
    files of a feature answered with anything but the exact word yes (or
    the [LICENSE] of a project that is not open source); the part of the
    script that removes them starts no process. *)
Theorem remove_unused_removes_exactly_the_disabled (cc : Cookiecutter)
  (w : World) :
  renders_plainly cc = true ->
  exists w',
    post_gen_project str_of_error cc w = Some w'
    /\ (forall f, In f (files w') <-> In f (files w) /\ ~ In f (doomed cc))
    /\ files w' = files (remove_unused cc w)
    /\ started (remove_unused cc w) = started w.
Proof.
  intros Hr. unfold post_gen_project. rewrite Hr.
  eexists. split; [reflexivity |].
  assert (F : files (script str_of_error cc w) = files (remove_unused cc w)).
  { unfold script.
    destruct (say_fields (farewell cc)
                (init_repository str_of_error (remove_unused cc w)))
      as (_ & F & _).
    rewrite F.
    now destruct (init_repository_shape (remove_unused cc w))
      as (k & _ & _ & F2 & _). }
  split; [intros f; rewrite F; apply remove_unused_files |].
  split; [exact F | apply remove_unused_rest].
Qed.

(** X14. For answers that render plainly, and whether each git command
    exits with zero, fails or is not found, the script runs to its end and
    its last lines are the five of the farewell.  Of [git init],
    [git add .] and [git commit] it starts the first [k], each only after
    the one before has exited with zero, and stops at the first that fails
    or is not found. *)
Theorem post_gen_always_says_farewell (cc : Cookiecutter) (w : World) :
  renders_plainly cc = true ->
  exists w' k before,
    post_gen_project str_of_error cc w = Some w'
    /\ (1 <= k <= 3)%nat
    /\ started w' = (started w ++ firstn k git_commands)%list
    /\ (forall i, (S i < k)%nat -> answer i w = Exited 0)
    /\ ((k < 3)%nat -> answer (k - 1) w <> Exited 0)
    /\ printed w' = (before ++ farewell cc)%list.
Proof.
  intros Hr. unfold post_gen_project. rewrite Hr.
  exists (script str_of_error cc w). unfold script.
  destruct (remove_unused_rest cc w) as [A S].
  destruct (init_repository_shape (remove_unused cc w))
    as (k & Hk & St & _ & Ok & Bad).
  destruct (say_fields (farewell cc)
              (init_repository str_of_error (remove_unused cc w)))
    as (P & _ & S2).
  exists k, (printed (init_repository str_of_error (remove_unused cc w))).
  split; [reflexivity |].
  split; [exact Hk |]. split; [now rewrite S2, St, S |].
  unfold answer in *. rewrite A in Ok, Bad.
  split; [exact Ok |]. split; [exact Bad | exact P].
Qed.

End Facts.

End PostGenFacts.

(** ** The scripts together *)

Module PipelineFacts.

Import WatchChanges WatchChangesFacts KbAdmin KbAdminFacts.

(** The admin object for a project at [base]. *)
Definition admin_at (base : string) : KnowledgeBaseAdmin :=
  {| base_dir := base; docs_dir := base ++ "/docs";
     scripts_dir := base ++ "/scripts" |}.

(** The paths that exist when the project at [base] holds [files]. *)
Definition present_in (base : string) (files : list string) (path : string)
  : bool :=
  existsb (fun f => String.eqb path (base ++ "/" ++ f)) files.

Lemma append_inj (a x y : string) : a ++ x = a ++ y -> x = y.
Proof.
  induction a as [| c a IH]; cbn; intros H; [exact H |].
  apply IH. now inversion H.
Qed.

Section Facts.

Context `{Env : AutoCommit.Environment} `{RT : Runtime}.


(** X16. In a project generated from answers that render plainly, with
    the file watcher answered by anything but yes, [start_watcher] finds no
    script: it logs the error, answers [False] and starts no process. *)
Theorem disabled_watcher_cannot_be_started
  (str_of_error : list string -> Z -> string) (cc : PostGen.Cookiecutter)
  (pw : PostGen.World) (base : string) (interval : Z) (w : World) :
  PostGen.renders_plainly cc = true ->
  PostGen.file_watcher_enabled cc <> "yes" ->
  exists pw',
    PostGen.post_gen_project str_of_error cc pw = Some pw'
    /\ start_watcher (present_in base (PostGen.files pw')) (admin_at base)
         interval w
       = (false,
          logger_error
            ("Script " ++ base ++ "/scripts/watch_changes.py not found") w).
Proof.
  intros Hr Hno. unfold PostGen.post_gen_project. rewrite Hr.
  eexists. split; [reflexivity |].
  assert (Gone : ~ In "scripts/watch_changes.py"
                   (PostGen.files (PostGen.script str_of_error cc pw))).
  { unfold PostGen.script.
    destruct (PostGenFacts.say_fields (PostGen.farewell cc)
                (PostGen.init_repository str_of_error
                   (PostGen.remove_unused cc pw))) as (_ & F & _).
    rewrite F.
    destruct (PostGenFacts.init_repository_shape str_of_error
                (PostGen.remove_unused cc pw)) as (k & _ & _ & F2 & _).
    rewrite F2. intros H. apply PostGenFacts.remove_unused_files in H.
    destruct H as [_ H]. apply H. unfold PostGenFacts.doomed.
    apply String.eqb_neq in Hno. unfold PostGen.yes. rewrite Hno. cbn [negb].
    do 4 (apply in_or_app; right). apply in_or_app. left. now left. }
  assert (Path : script_path (admin_at base) "watch_changes"
                 = base ++ "/" ++ "scripts/watch_changes.py").
  { unfold script_path, admin_at. cbn [scripts_dir].
    now rewrite PyFacts.append_assoc. }
  unfold start_watcher, _run_script. rewrite Path.
  assert (Absent : present_in base
                     (PostGen.files (PostGen.script str_of_error cc pw))
                     (base ++ "/" ++ "scripts/watch_changes.py") = false).
  { unfold present_in. apply not_true_iff_false. intros H.
    apply existsb_exists in H. destruct H as (f & Hf & E).
    apply String.eqb_eq in E. apply append_inj in E. cbn in E.
    inversion E; subst. contradiction. }
  rewrite Absent. cbn [negb]. now rewrite PyFacts.append_assoc.
Qed.

End Facts.

(** *** Concrete runs *)

Import Doubles.


Definition watcher_declined : PostGen.Cookiecutter :=
  {| PostGen.use_analytics := "yes"; PostGen.use_authentication := "yes";
     PostGen.use_comments := "yes"; PostGen.auto_commit_enabled := "yes";
     PostGen.file_watcher_enabled := "no";
     PostGen.open_source_license := "MIT";
     PostGen.project_name := "Team KB"; PostGen.project_slug := "team-kb" |}.

Definition generated : PostGen.World :=
  {| PostGen.files := ["mkdocs.yml"; "LICENSE"; "scripts/auto_commit.py";
                       "scripts/watch_changes.py"; "scripts/kb_admin.py"];
     PostGen.answers := []; PostGen.printed := []; PostGen.started := [] |}.

(** The same project on a machine without git. *)
Definition git_missing : PostGen.World :=
  {| PostGen.files := PostGen.files generated;
     PostGen.answers := [PostGen.NotFound];
     PostGen.printed := []; PostGen.started := [] |}.

Lemma disabled_watcher_cannot_be_started_witness :
  exists pw',
    PostGen.post_gen_project (fun _ => Py.str_of_Z) watcher_declined generated
    = Some pw'
    /\ start_watcher (present_in "/srv/team-kb" (PostGen.files pw'))
         (admin_at "/srv/team-kb") 5 (world_at 0 [])
       = (false,
          logger_error "Script /srv/team-kb/scripts/watch_changes.py not found"
            (world_at 0 [])).
Proof.
  apply (disabled_watcher_cannot_be_started (fun _ => Py.str_of_Z)
           watcher_declined generated "/srv/team-kb" 5 (world_at 0 [])).
  - reflexivity.
  - discriminate.
Defined.

Lemma remove_unused_removes_exactly_the_disabled_witness :
  exists w',
    PostGen.post_gen_project (fun _ => Py.str_of_Z) watcher_declined generated
    = Some w'
    /\ PostGen.files w'
       = ["mkdocs.yml"; "LICENSE"; "scripts/auto_commit.py";
          "scripts/kb_admin.py"].
Proof.
  destruct (PostGenFacts.remove_unused_removes_exactly_the_disabled
              (fun _ => Py.str_of_Z) watcher_declined generated eq_refl)
    as (w' & E & _ & F & _).
  exists w'. split; [exact E |]. rewrite F. reflexivity.
Defined.

Lemma post_gen_always_says_farewell_witness :
  exists w' before,
    PostGen.post_gen_project (fun _ => Py.str_of_Z) watcher_declined
      git_missing
    = Some w'
    /\ PostGen.started w' = [PostGen.git_init]
    /\ PostGen.printed w' = (before ++ PostGen.farewell watcher_declined)%list.
Proof.
  destruct (PostGenFacts.post_gen_always_says_farewell
              (fun _ => Py.str_of_Z) watcher_declined git_missing eq_refl)
    as (w' & k & before & E & Hk & St & _ & _ & P).
  exists w', before. split; [exact E |]. split; [| exact P].
  unfold PostGen.post_gen_project in E. cbn in E. inversion E. reflexivity.
Defined.

Example post_gen_keeps_the_rest :
  PostGen.post_gen_project (fun _ => Py.str_of_Z) watcher_declined generated
  = Some
      {| PostGen.files := ["mkdocs.yml"; "LICENSE"; "scripts/auto_commit.py";
                           "scripts/kb_admin.py"];
         PostGen.answers := [];
         PostGen.printed :=
           ["Configuring your knowledge base project...";
            "Removed scripts/watch_changes.py";
            "Initializing git repository...";
            "Git repository initialized with initial commit";
            PostGen.newline ++ "Project 'Team KB' created successfully!";
            "To get started, run:";
            "  cd team-kb";
            "  pip install -r requirements.txt";
            "  mkdocs serve"];
         PostGen.started := PostGenFacts.git_commands |}.
Proof. reflexivity. Qed.

Example post_gen_braces_in_name :
  PostGen.post_gen_project (fun _ => Py.str_of_Z)
    {| PostGen.use_analytics := "yes"; PostGen.use_authentication := "yes";
       PostGen.use_comments := "yes"; PostGen.auto_commit_enabled := "yes";
       PostGen.file_watcher_enabled := "no";
       PostGen.open_source_license := "MIT";
       PostGen.project_name := "KB {v2}"; PostGen.project_slug := "kb-v2" |}
    generated
  = None.
Proof. reflexivity. Qed.

End PipelineFacts.

(** ** scripts/create_document.py: slugs and tags *)

Module CreateDocument.

(** Characters are code points below 256, as in [Py]. *)
Definition code (c : ascii) : nat := nat_of_ascii c.

Definition between (lo hi : nat) (c : ascii) : bool :=
  ((lo <=? code c)%nat && (code c <=? hi)%nat).

(** The characters [str.lower] changes: A to Z and the capital letters
    with marks; each moves up by 32. *)
Definition is_upper (c : ascii) : bool :=
  between 65 90 c || between 192 214 c || between 216 222 c.

Definition lower_char (c : ascii) : ascii :=
  if is_upper c then ascii_of_nat (code c + 32) else c.

Fixpoint lower (s : string) : string :=
  match s with
  | EmptyString => EmptyString
  | String c r => String (lower_char c) (lower r)
  end.

(** The class [\w]: letters, digits and the underscore. *)
Definition is_word (c : ascii) : bool :=
  between 48 57 c || between 65 90 c || (code c =? 95)%nat
  || between 97 122 c || (code c =? 170)%nat || between 178 179 c
  || (code c =? 181)%nat || between 185 186 c || between 188 190 c
  || between 192 214 c || between 216 246 c || between 248 255 c.

Definition is_hyphen (c : ascii) : bool := Ascii.eqb c "-"%char.

(** The class [[\w\s-]]. *)
Definition kept (c : ascii) : bool :=
  is_word c || Py.isspace c || is_hyphen c.

(** The class [[\s_-]]. *)
Definition is_separator (c : ascii) : bool :=
  Py.isspace c || Ascii.eqb c "_"%char || is_hyphen c.

(** [re.sub(r'[^\w\s-]', '', text)]. *)
Fixpoint drop_other (s : string) : string :=
  match s with
  | EmptyString => EmptyString
  | String c r => if kept c then String c (drop_other r) else drop_other r
  end.

(** [re.sub(r'[\s_-]+', '-', text)]; [in_run] tells that the character
    before was a separator. *)
Fixpoint hyphenate (in_run : bool) (s : string) : string :=
  match s with
  | EmptyString => EmptyString
  | String c r =>
      if is_separator c then
        if in_run then hyphenate true r
        else String "-"%char (hyphenate true r)
      else String c (hyphenate false r)
  end.

(** [re.sub(r'^-+|-+$', '', text)] on a text without line ends: the
    hyphens at the start, then those at the end. *)
Fixpoint drop_leading (s : string) : string :=
  match s with
  | EmptyString => EmptyString
  | String c r => if is_hyphen c then drop_leading r else s
  end.

Fixpoint drop_trailing (s : string) : string :=
  match s with
  | EmptyString => EmptyString
  | String c r =>
      match drop_trailing r with
      | EmptyString => if is_hyphen c then EmptyString else String c EmptyString
      | x => String c x
      end
  end.

(** [DocumentCreator.slugify]. *)
Definition slugify (text : string) : string :=
  let text := Py.strip (lower text) in
  let text := drop_other text in
  let text := hyphenate false text in
  drop_trailing (drop_leading text).

(** [text.split(",")]. *)
Fixpoint split_comma (s : string) : list string :=
  match s with
  | EmptyString => [EmptyString]
  | String c r =>
      if Ascii.eqb c ","%char then EmptyString :: split_comma r
      else match split_comma r with
           | x :: xs => String c x :: xs
           | [] => [String c EmptyString]
           end
  end.

(** [[tag.strip() for tag in text.split(",") if tag.strip()]], in [main]. *)
Definition parse_tags (text : string) : list string :=
  filter (fun t => negb (String.eqb t ""))
    (map Py.strip (split_comma text)).

(** [", ".join(tags)], in [create_document]. *)
Fixpoint join_tags (tags : list string) : string :=
  match tags with
  | [] => EmptyString
  | [t] => t
  | t :: r => t ++ ", " ++ join_tags r
  end.

End CreateDocument.

Example slugify_title :
  CreateDocument.slugify "  Getting Started: Git_Hooks & CI/CD!  "
  = "getting-started-git-hooks-cicd".
Proof. reflexivity. Qed.

Example slugify_no_word : CreateDocument.slugify " -- ?! -- " = "".
Proof. reflexivity. Qed.

Example parse_tags_line :
  CreateDocument.parse_tags " git, how to , ,ci" = ["git"; "how to"; "ci"].
Proof. reflexivity. Qed.

Module CreateDocumentFacts.

Import CreateDocument.

(** Every character of [s] satisfies [p]. *)
Fixpoint all_chars (p : ascii -> bool) (s : string) : bool :=
  match s with
  | EmptyString => true
  | String c r => p c && all_chars p r
  end.

(** The characters of a slug: a hyphen, or a letter or digit that
    [str.lower] leaves alone. *)
Definition slug_char (c : ascii) : bool :=
  is_hyphen c
  || (is_word c && negb (is_upper c) && negb (Ascii.eqb c "_"%char)).

(** No two hyphens in a row; [prev] tells that the character before was a
    hyphen. *)
Fixpoint spaced_hyphens (prev : bool) (s : string) : bool :=
  match s with
  | EmptyString => true
  | String c r => negb (prev && is_hyphen c) && spaced_hyphens (is_hyphen c) r
  end.

Definition starts_with_hyphen (s : string) : bool :=
  match s with
  | EmptyString => false
  | String c _ => is_hyphen c
  end.

Fixpoint ends_with_hyphen (s : string) : bool :=
  match s with
  | EmptyString => false
  | String c EmptyString => is_hyphen c
  | String _ r => ends_with_hyphen r
  end.

(** The form of a slug: slug characters only, hyphens one at a time and
    neither first nor last. *)
Definition slug_form (s : string) : bool :=
  all_chars slug_char s && spaced_hyphens false s
  && negb (starts_with_hyphen s) && negb (ends_with_hyphen s).

Definition not_comma (c : ascii) : bool := negb (Ascii.eqb c ","%char).

(** The form of a tag as [main] makes them: not empty, no comma, no white
    space at either end. *)
Definition tag_form (t : string) : bool :=
  negb (String.eqb t "") && all_chars not_comma t
  && negb (PyFacts.starts_with_space t) && negb (PyFacts.ends_with_space t).

Ltac each_char c := destruct c as [[] [] [] [] [] [] [] []].

(** *** Character classes *)

Lemma lower_char_not_upper (c : ascii) : is_upper (lower_char c) = false.
Proof. each_char c; vm_compute; reflexivity. Qed.

Lemma slug_char_kept (c : ascii) :
  slug_char c = true ->
  kept c = true /\ is_upper c = false /\ Py.isspace c = false
  /\ Ascii.eqb c "/"%char = false /\ Ascii.eqb c "."%char = false.
Proof. each_char c; vm_compute; intros H; try discriminate H; repeat split. Qed.

Lemma slug_char_separator (c : ascii) :
  slug_char c = true -> is_separator c = is_hyphen c.
Proof. each_char c; vm_compute; intros H; try discriminate H; reflexivity. Qed.

Lemma kept_lower_slug_char (c : ascii) :
  kept c = true -> is_upper c = false -> is_separator c = false ->
  slug_char c = true.
Proof.
  each_char c; vm_compute; intros H1 H2 H3;
    try discriminate H1; try discriminate H2; try discriminate H3;
    reflexivity.
Qed.

Lemma separator_not_hyphen (c : ascii) :
  is_separator c = false -> is_hyphen c = false.
Proof.
  unfold is_separator. intros H.
  apply orb_false_iff in H. tauto.
Qed.

Lemma is_hyphen_eq (c : ascii) : is_hyphen c = true -> c = "-"%char.
Proof. apply Ascii.eqb_eq. Qed.

(** *** What the steps keep *)

Lemma all_chars_impl (p q : ascii -> bool) (s : string) :
  (forall c, p c = true -> q c = true) ->
  all_chars p s = true -> all_chars q s = true.
Proof.
  intros H. induction s as [| c r IH]; cbn; [reflexivity |].
  intros A. apply andb_true_iff in A. destruct A as [Hc Hr].
  now rewrite (H c Hc), IH.
Qed.

Lemma all_chars_lstrip (p : ascii -> bool) (s : string) :
  all_chars p s = true -> all_chars p (Py.lstrip s) = true.
Proof.
  induction s as [| c r IH]; cbn; [reflexivity |]. intros A.
  destruct (Py.isspace c); [| exact A].
  apply andb_true_iff in A. now apply IH.
Qed.

Lemma all_chars_rstrip (p : ascii -> bool) (s : string) :
  all_chars p s = true -> all_chars p (Py.rstrip s) = true.
Proof.
  induction s as [| c r IH]; [reflexivity |].
  cbn [all_chars]. intros A. apply andb_true_iff in A. destruct A as [Hc Hr].
  rewrite PyFacts.rstrip_cons. specialize (IH Hr).
  destruct (Py.rstrip r).
  - destruct (Py.isspace c); cbn; [reflexivity | now rewrite Hc].
  - cbn [all_chars] in *. now rewrite Hc, IH.
Qed.

Lemma all_chars_strip (p : ascii -> bool) (s : string) :
  all_chars p s = true -> all_chars p (Py.strip s) = true.
Proof. intros A. now apply all_chars_rstrip, all_chars_lstrip. Qed.

Lemma all_chars_lower (s : string) :
  all_chars (fun c => negb (is_upper c)) (lower s) = true.
Proof.
  induction s as [| c r IH]; cbn; [reflexivity |].
  now rewrite lower_char_not_upper, IH.
Qed.

Lemma all_chars_drop_other (p : ascii -> bool) (s : string) :
  all_chars p s = true ->
  all_chars (fun c => kept c && p c) (drop_other s) = true.
Proof.
  induction s as [| c r IH]; cbn; [reflexivity |]. intros A.
  apply andb_true_iff in A. destruct A as [Hc Hr].
  destruct (kept c) eqn:K; cbn; [rewrite K, Hc |]; now apply IH.
Qed.

Lemma all_chars_hyphenate (b : bool) (s : string) :
  all_chars (fun c => kept c && negb (is_upper c)) s = true ->
  all_chars slug_char (hyphenate b s) = true.
Proof.
  revert b. induction s as [| c r IH]; intros b; cbn; [reflexivity |].
  intros A. apply andb_true_iff in A. destruct A as [Hc Hr].
  apply andb_true_iff in Hc. destruct Hc as [K U].
  apply negb_true_iff in U.
  destruct (is_separator c) eqn:S.
  - destruct b; cbn; now apply IH.
  - cbn. rewrite (kept_lower_slug_char c K U S). now apply IH.
Qed.

Lemma spaced_hyphens_hyphenate (b : bool) (s : string) :
  spaced_hyphens b (hyphenate b s) = true.
Proof.
  revert b. induction s as [| c r IH]; intros b; cbn; [reflexivity |].
  destruct (is_separator c) eqn:S.
  - destruct b; [apply IH |]. cbn. apply IH.
  - cbn. rewrite (separator_not_hyphen c S), andb_false_r. cbn. apply IH.
Qed.

Lemma spaced_hyphens_weaken (b : bool) (s : string) :
  spaced_hyphens b s = true -> spaced_hyphens false s = true.
Proof.
  destruct s as [| c r]; cbn; [reflexivity |]. intros H.
  apply andb_true_iff in H. tauto.
Qed.

Lemma spaced_hyphens_tail (b : bool) (c : ascii) (r : string) :
  spaced_hyphens b (String c r) = true -> spaced_hyphens false r = true.
Proof.
  cbn. intros H. apply andb_true_iff in H.
  now apply (spaced_hyphens_weaken (is_hyphen c)).
Qed.

Lemma drop_leading_keeps (p : ascii -> bool) (s : string) :
  all_chars p s = true -> spaced_hyphens false s = true ->
  all_chars p (drop_leading s) = true
  /\ spaced_hyphens false (drop_leading s) = true
  /\ starts_with_hyphen (drop_leading s) = false.
Proof.
  induction s as [| c r IH]; cbn [drop_leading]; [now repeat split |].
  intros A S. destruct (is_hyphen c) eqn:H.
  - cbn in A. apply andb_true_iff in A. apply IH; [tauto |].
    now apply (spaced_hyphens_tail false c).
  - repeat split; assumption.
Qed.

Lemma drop_trailing_keeps (p : ascii -> bool) (s : string) :
  forall b,
    all_chars p s = true -> spaced_hyphens b s = true ->
    all_chars p (drop_trailing s) = true
    /\ spaced_hyphens b (drop_trailing s) = true
    /\ (starts_with_hyphen s = false ->
        starts_with_hyphen (drop_trailing s) = false)
    /\ ends_with_hyphen (drop_trailing s) = false.
Proof.
  induction s as [| c r IH]; intros b A S; [now repeat split |].
  cbn in A, S. apply andb_true_iff in A. destruct A as [Hc Hr].
  apply andb_true_iff in S. destruct S as [Sc Sr].
  destruct (IH (is_hyphen c) Hr Sr) as (A' & S' & _ & E').
  cbn [drop_trailing]. destruct (drop_trailing r) as [| d x] eqn:D.
  - destruct (is_hyphen c) eqn:H; cbn.
    + repeat split.
    + rewrite Hc, H, andb_false_r. cbn. repeat split.
  - change (all_chars p (String c (String d x)))
      with (p c && all_chars p (String d x)).
    change (spaced_hyphens b (String c (String d x)))
      with (negb (b && is_hyphen c)
            && spaced_hyphens (is_hyphen c) (String d x)).
    change (ends_with_hyphen (String c (String d x)))
      with (ends_with_hyphen (String d x)).
    rewrite Hc, Sc, A', S'. repeat split; [| exact E'].
    intros F. exact F.
Qed.

(** *** Strings the steps leave alone *)

Lemma lower_fixed (s : string) :
  all_chars (fun c => negb (is_upper c)) s = true -> lower s = s.
Proof.
  induction s as [| c r IH]; cbn; [reflexivity |]. intros A.
  apply andb_true_iff in A. destruct A as [Hc Hr].
  apply negb_true_iff in Hc. unfold lower_char. rewrite Hc. now rewrite IH.
Qed.

Lemma strip_fixed (s : string) :
  PyFacts.starts_with_space s = false ->
  PyFacts.ends_with_space s = false -> Py.strip s = s.
Proof.
  intros Hs He. unfold Py.strip.
  assert (L : Py.lstrip s = s).
  { destruct s as [| c r]; [reflexivity |]. cbn in *. now rewrite Hs. }
  rewrite L. clear Hs L.
  induction s as [| c r IH]; [reflexivity |].
  rewrite PyFacts.rstrip_cons. destruct r as [| d x].
  - cbn in *. now rewrite He.
  - rewrite IH by exact He. reflexivity.
Qed.

Lemma no_space_edges (s : string) :
  all_chars (fun c => negb (Py.isspace c)) s = true ->
  PyFacts.starts_with_space s = false /\ PyFacts.ends_with_space s = false.
Proof.
  induction s as [| c r IH]; [now split |].
  cbn [all_chars]. intros A. apply andb_true_iff in A. destruct A as [Hc Hr].
  apply negb_true_iff in Hc. split; [exact Hc |].
  destruct r as [| d x]; [exact Hc |]. now apply IH.
Qed.

Lemma drop_other_fixed (s : string) :
  all_chars kept s = true -> drop_other s = s.
Proof.
  induction s as [| c r IH]; cbn; [reflexivity |]. intros A.
  apply andb_true_iff in A. destruct A as [Hc Hr]. now rewrite Hc, IH.
Qed.

Lemma hyphenate_fixed (s : string) :
  forall b,
    all_chars slug_char s = true -> spaced_hyphens b s = true ->
    hyphenate b s = s.
Proof.
  induction s as [| c r IH]; intros b A S; cbn; [reflexivity |].
  cbn in A, S. apply andb_true_iff in A. destruct A as [Hc Hr].
  apply andb_true_iff in S. destruct S as [Sc Sr].
  rewrite (slug_char_separator c Hc).
  destruct (is_hyphen c) eqn:H.
  - destruct b; [discriminate Sc |].
    rewrite (is_hyphen_eq c H). f_equal. now apply IH.
  - f_equal. now apply IH.
Qed.

Lemma drop_leading_fixed (s : string) :
  starts_with_hyphen s = false -> drop_leading s = s.
Proof. destruct s as [| c r]; cbn; [reflexivity |]. now intros ->. Qed.

Lemma drop_trailing_fixed (s : string) :
  ends_with_hyphen s = false -> drop_trailing s = s.
Proof.
  induction s as [| c r IH]; [reflexivity |]. intros E.
  cbn [drop_trailing]. destruct r as [| d x].
  - cbn in *. now rewrite E.
  - rewrite IH by exact E. reflexivity.
Qed.

(** What [slugify] returns has the form of a slug. *)
Lemma slugify_form (text : string) : slug_form (slugify text) = true.
Proof.
  unfold slugify, slug_form. cbv zeta.
  set (t1 := Py.strip (lower text)).
  assert (A1 : all_chars (fun c => negb (is_upper c)) t1 = true)
    by apply all_chars_strip, all_chars_lower.
  assert (A2 : all_chars (fun c => kept c && negb (is_upper c))
                 (drop_other t1) = true)
    by now apply all_chars_drop_other.
  assert (A3 : all_chars slug_char (hyphenate false (drop_other t1)) = true)
    by now apply all_chars_hyphenate.
  pose proof (spaced_hyphens_hyphenate false (drop_other t1)) as S3.
  destruct (drop_leading_keeps slug_char _ A3 S3) as (A4 & S4 & L4).
  destruct (drop_trailing_keeps slug_char _ false A4 S4) as (A5 & S5 & L5 & E5).
  now rewrite A5, S5, (L5 L4), E5.
Qed.

(** *** Splitting at commas *)

Lemma split_comma_not_nil (s : string) : split_comma s <> [].
Proof.
  induction s as [| c r IH]; cbn; [discriminate |].
  destruct (Ascii.eqb c ","%char); [discriminate |].
  destruct (split_comma r); discriminate.
Qed.

Lemma split_comma_pieces (s : string) :
  Forall (fun t => all_chars not_comma t = true) (split_comma s).
Proof.
  induction s as [| c r IH]; cbn; [now repeat constructor |].
  destruct (Ascii.eqb c ","%char) eqn:E; [now constructor |].
  destruct (split_comma r) as [| x xs].
  - repeat constructor. cbn. unfold not_comma. now rewrite E.
  - inversion IH; subst. constructor; [| assumption].
    cbn. unfold not_comma at 1. now rewrite E.
Qed.

(** The text holds nothing but commas and white space. *)
Definition only_commas_and_space (text : string) : bool :=
  all_chars (fun c => Py.isspace c || Ascii.eqb c ","%char) text.

Lemma split_comma_blank (s : string) :
  Forall (fun piece => PyFacts.blank piece = true) (split_comma s)
  <-> only_commas_and_space s = true.
Proof.
  unfold only_commas_and_space.
  induction s as [| c r IH]; cbn [split_comma all_chars].
  - split; [reflexivity | intros _; now repeat constructor].
  - destruct (Ascii.eqb c ","%char) eqn:E.
    + rewrite orb_true_r. cbn [andb]. rewrite <- IH. split.
      * intros F. now inversion F.
      * intros F. now constructor.
    + rewrite orb_false_r.
      destruct (split_comma r) as [| h t] eqn:Er;
        [now apply split_comma_not_nil in Er |].
      rewrite andb_true_iff, <- IH. split.
      * intros F. inversion F as [| ? ? Hh Ht]; subst.
        cbn [PyFacts.blank] in Hh. apply andb_true_iff in Hh.
        destruct Hh as [Hc Hh]. split; [exact Hc | now constructor].
      * intros [Hc F]. inversion F as [| ? ? Hh Ht]; subst.
        constructor; [| assumption]. cbn [PyFacts.blank]. now rewrite Hc, Hh.
Qed.

Lemma no_tag_of_blank_pieces (pieces : list string) :
  filter (fun t => negb (String.eqb t "")) (map Py.strip pieces) = []
  <-> Forall (fun piece => PyFacts.blank piece = true) pieces.
Proof.
  induction pieces as [| x r IH]; cbn [map filter].
  - split; [constructor | reflexivity].
  - destruct (String.eqb_spec (Py.strip x) "") as [E | N]; cbn [negb].
    + rewrite IH. apply PyFacts.strip_blank in E. split.
      * intros F. now constructor.
      * intros F. now inversion F.
    + split; [discriminate |]. intros F. inversion F as [| ? ? Hx _]; subst.
      apply PyFacts.strip_blank in Hx. contradiction.
Qed.

Lemma join_tags_empty (tags : list string) :
  Forall (fun t => tag_form t = true) tags ->
  join_tags tags = "" <-> tags = [].
Proof.
  intros F. split; [| now intros ->].
  destruct tags as [| t r]; [reflexivity |]. intros J.
  inversion F as [| ? ? Ht _]; subst. unfold tag_form in Ht.
  repeat (apply andb_true_iff in Ht; destruct Ht as [Ht ?]).
  apply negb_true_iff, String.eqb_neq in Ht.
  destruct t as [| c t]; [contradiction |].
  destruct r; discriminate J.
Qed.

(** *** Properties *)

(** X17. For every title made of characters with code points below 256,
    the strings of this development, [slugify] returns a string made of
    hyphens and of letters and digits in lower case, with no hyphen first
    or last and no two hyphens in a row; so it holds no slash, no dot and
    no white space, and the file name made of it names a file of the
    directory of the document. *)
Theorem slugify_is_path_safe (text : string) :
  slug_form (slugify text) = true
  /\ PyFacts.no_slash (slugify text) = true
  /\ all_chars (fun c => negb (Ascii.eqb c "."%char)) (slugify text) = true
  /\ all_chars (fun c => negb (Py.isspace c)) (slugify text) = true.
Proof.
  pose proof (slugify_form text) as F. split; [exact F |].
  unfold slug_form in F.
  repeat (apply andb_true_iff in F; destruct F as [F ?]).
  assert (N : forall s, all_chars slug_char s = true ->
                        PyFacts.no_slash s = true).
  { induction s as [| c r IH]; cbn; [reflexivity |]. intros A.
    apply andb_true_iff in A. destruct A as [Hc Hr].
    destruct (slug_char_kept c Hc) as (_ & _ & _ & Sl & _).
    now rewrite Sl, IH. }
  split; [now apply N |].
  split; apply (all_chars_impl slug_char); try assumption;
    intros c Hc; destruct (slug_char_kept c Hc) as (_ & _ & Sp & _ & Dot);
    [now rewrite Dot | now rewrite Sp].
Qed.

(** X18. [slugify] leaves every string of the form of a slug as it is, so
    applying it twice gives what applying it once gives. *)
Theorem slugify_is_idempotent :
  (forall s, slug_form s = true -> slugify s = s)
  /\ (forall text, slugify (slugify text) = slugify text).
Proof.
  assert (Fixed : forall s, slug_form s = true -> slugify s = s).
  { intros s F. unfold slug_form in F.
    repeat (apply andb_true_iff in F; destruct F as [F ?]).
    repeat match goal with
           | X : negb _ = true |- _ => apply negb_true_iff in X
           end.
    assert (U : all_chars (fun c => negb (is_upper c)) s = true).
    { apply (all_chars_impl slug_char); [| assumption]. intros c Hc.
      destruct (slug_char_kept c Hc) as (_ & Up & _). now rewrite Up. }
    assert (W : all_chars (fun c => negb (Py.isspace c)) s = true).
    { apply (all_chars_impl slug_char); [| assumption]. intros c Hc.
      destruct (slug_char_kept c Hc) as (_ & _ & Sp & _). now rewrite Sp. }
    assert (K : all_chars kept s = true).
    { apply (all_chars_impl slug_char); [| assumption]. intros c Hc.
      now destruct (slug_char_kept c Hc). }
    destruct (no_space_edges s W) as [Ss Se].
    unfold slugify. cbv zeta.
    rewrite (lower_fixed s U), (strip_fixed s Ss Se), (drop_other_fixed s K).
    rewrite hyphenate_fixed by assumption.
    rewrite drop_leading_fixed by assumption.
    now apply drop_trailing_fixed. }
  split; [exact Fixed |].
  intros text. apply Fixed, slugify_form.
Qed.

(** X19. The tags [main] makes of the text of [--tags], a text of
    characters with code points below 256, are not empty, hold no comma and
    have no white space at either end.  There is none exactly when the text
    holds nothing but commas and white space, and then, and only then, the
    line of tags that [create_document] writes is empty. *)
Theorem parsed_tags_are_clean (text : string) :
  Forall (fun t => tag_form t = true) (parse_tags text)
  /\ (parse_tags text = [] <-> only_commas_and_space text = true)
  /\ (join_tags (parse_tags text) = "" <-> only_commas_and_space text = true).
Proof.
  assert (Form : Forall (fun t => tag_form t = true) (parse_tags text)).
  { unfold parse_tags. apply Forall_forall. intros t Ht.
    apply filter_In in Ht. destruct Ht as [Hin Hne].
    apply in_map_iff in Hin. destruct Hin as (piece & <- & Hp).
    pose proof (split_comma_pieces text) as P.
    rewrite Forall_forall in P. specialize (P piece Hp).
    unfold tag_form. rewrite Hne. cbn [andb].
    rewrite (all_chars_strip not_comma piece P). cbn [andb].
    destruct (PyFacts.strip_edges piece) as [S E]. now rewrite S, E. }
  assert (Nil : parse_tags text = [] <-> only_commas_and_space text = true).
  { unfold parse_tags. now rewrite no_tag_of_blank_pieces, split_comma_blank. }
  split; [exact Form |]. split; [exact Nil |].
  now rewrite (join_tags_empty _ Form).
Qed.

Example parse_tags_only_commas :
  parse_tags " , ,, " = [] /\ join_tags (parse_tags " , ,, ") = "".
Proof. split; reflexivity. Qed.

End CreateDocumentFacts.

(** ** The documents the watcher sees *)

Module DocumentEvents.

Import WatchChanges CreateDocument CreateDocumentFacts.

Lemma no_slash_app (a b : string) :
  PyFacts.no_slash a = true -> PyFacts.no_slash b = true ->
  PyFacts.no_slash (a ++ b) = true.
Proof.
  induction a as [| c r IH]; cbn; [tauto |]. intros A B.
  apply andb_true_iff in A. destruct A as [Hc Hr].
  now rewrite Hc, IH.
Qed.

(** X20. The file that [create_document] names after the slug of a title,
    in whatever directory, makes events that the watcher lets through,
    unless the slug is empty: a title without any letter or digit gives the
    file name [.md], which the watcher takes for a hidden file. *)
Theorem created_document_is_watched_unless_slug_is_empty
  (kind dir title : string) :
  qualifies {| event_type := kind;
               src_path := dir ++ "/" ++ (slugify title ++ ".md");
               is_directory := false |}
  = negb (String.eqb (slugify title) "").
Proof.
  pose proof (slugify_form title) as F. unfold slug_form in F.
  repeat (apply andb_true_iff in F; destruct F as [F ?]).
  assert (N : PyFacts.no_slash (slugify title) = true).
  { revert F. generalize (slugify title) as s.
    induction s as [| c r IH]; cbn; [reflexivity |]. intros A.
    apply andb_true_iff in A. destruct A as [Hc Hr].
    destruct (slug_char_kept c Hc) as (_ & _ & _ & Sl & _).
    now rewrite Sl, IH. }
  unfold qualifies. cbn [is_directory src_path orb].
  rewrite PyFacts.basename_join by (apply no_slash_app; [exact N | reflexivity]).
  destruct (slugify title) as [| c r] eqn:E; [reflexivity |].
  cbn in F. apply andb_true_iff in F. destruct F as [Hc _].
  destruct (slug_char_kept c Hc) as (_ & _ & _ & _ & Dot).
  cbn. now rewrite Dot.
Qed.

Example unnamed_document_is_hidden :
  qualifies {| event_type := "created";
               src_path := "/srv/kb/docs/" ++ slugify "???" ++ ".md";
               is_directory := false |}
  = false.
Proof. reflexivity. Qed.

End DocumentEvents.
